(** * Attendance system: a shallow embedding of [app.py]

    The Flask application keeps two SQLite tables, [sessions] and
    [attendance], and serves six routes.  Each route handler is embedded as a
    function from the request data and the database to a response and the
    database the request leaves behind.  What the handler draws from its
    environment (the random token of [secrets.token_urlsafe], the clock of
    [datetime.utcnow], the host of the request) is an argument of the
    function.  Failures of the storage engine itself (I/O errors, a full
    disk, a locked file) are outside the model.

    The [sqlite3] module encodes every [str] parameter in UTF-8 before it
    runs a statement, and raises when it cannot.  The texts of a JSON body
    can be such: [json.loads] turns the escape of a lone surrogate into that
    code point.  The texts of the other handlers cannot: form fields and
    paths are decoded from UTF-8 with replacement, the token is drawn from an
    ASCII alphabet and the timestamp is made of ASCII digits.  The binding
    step is therefore part of [mark_attendance] only. *)

From Stdlib Require Import List ZArith NArith Bool String Ascii Lia.
From Stdlib Require Import Sorted Permutation.
From Stdlib Require Import Floats.SpecFloat.
Import ListNotations.

Local Open Scope Z_scope.

(** ** Python strings *)

(** A Python [str] is a sequence of Unicode code points. *)
Definition pystr := list N.

(** Code points of a literal, to write the constants of the source. *)
Definition u (s : string) : pystr := map N_of_ascii (list_ascii_of_string s).

Fixpoint str_eqb (a b : pystr) : bool :=
  match a, b with
  | [], [] => true
  | x :: a', y :: b' => N.eqb x y && str_eqb a' b'
  | _, _ => false
  end.

(** Order of SQLite's default BINARY collation: [memcmp] on the UTF-8
    encoding, which orders texts as their code point sequences are ordered
    lexicographically, a proper prefix coming first. *)
Fixpoint str_leb (a b : pystr) : bool :=
  match a, b with
  | [], _ => true
  | _ :: _, [] => false
  | x :: a', y :: b' => N.ltb x y || (N.eqb x y && str_leb a' b')
  end.

(** [str.isspace] on one code point: the table behind [str.strip()]. *)
Definition is_space (c : N) : bool :=
  ((9 <=? c) && (c <=? 13) ||
   (28 <=? c) && (c <=? 32) ||
   (c =? 133) || (c =? 160) || (c =? 5760) ||
   (8192 <=? c) && (c <=? 8202) ||
   (c =? 8232) || (c =? 8233) || (c =? 8239) || (c =? 8287) ||
   (c =? 12288))%N.

Fixpoint lstrip (s : pystr) : pystr :=
  match s with
  | [] => []
  | c :: s' => if is_space c then lstrip s' else s
  end.

Definition rstrip (s : pystr) : pystr := rev (lstrip (rev s)).

(** [s.strip()] *)
Definition strip (s : pystr) : pystr := rstrip (lstrip s).

(** Truth value of a [str]: [not s] holds of the empty string only. *)
Definition str_truthy (s : pystr) : bool :=
  match s with [] => false | _ :: _ => true end.

(** ** Timestamps *)

(** A [datetime], as [datetime.utcnow()] returns it. *)
Record datetime := mk_datetime {
  year : N;
  month : N;
  day : N;
  hour : N;
  minute : N;
  second : N;
  microsecond : N
}.

(** The ranges the fields of a [datetime] are kept in. *)
Definition datetime_in_range (d : datetime) : Prop :=
  (1 <= year d <= 9999 /\ 1 <= month d <= 12 /\ 1 <= day d <= 31 /\
   hour d < 24 /\ minute d < 60 /\ second d < 60 /\
   microsecond d < 1000000)%N.

Definition digit (n : N) : N := (48 + n mod 10)%N.

(** ["%02d"] and ["%04d"], on the numbers a [datetime] holds. *)
Definition digits2 (n : N) : pystr := [digit (n / 10); digit n].
Definition digits4 (n : N) : pystr :=
  [digit (n / 1000); digit (n / 100); digit (n / 10); digit n].

(** [d.isoformat(timespec="seconds")] of a [datetime] without time zone:
    [YYYY-MM-DDTHH:MM:SS], the microseconds dropped. *)
Definition isoformat (d : datetime) : pystr :=
  digits4 (year d) ++ u "-" ++ digits2 (month d) ++ u "-" ++ digits2 (day d)
  ++ u "T" ++ digits2 (hour d) ++ u ":" ++ digits2 (minute d) ++ u ":"
  ++ digits2 (second d).

(** [a] is not later than [b], to the second. *)
Definition datetime_leb (a b : datetime) : bool :=
  ((year a <? year b) || (year a =? year b) &&
   ((month a <? month b) || (month a =? month b) &&
    ((day a <? day b) || (day a =? day b) &&
     ((hour a <? hour b) || (hour a =? hour b) &&
      ((minute a <? minute b) || (minute a =? minute b) &&
       (second a <=? second b))))))%N.

(** ** JSON values, as [json.loads] builds them *)

#[local] Unset Elimination Schemes.
Inductive json :=
| JNull
| JBool (b : bool)
| JInt (n : Z)
| JFloat (f : spec_float)
| JStr (s : pystr)
| JArr (items : list json)
| JObj (members : list (pystr * json)).
#[local] Set Elimination Schemes.

(** Python's truth value of a decoded JSON value. *)
Definition truthy (v : json) : bool :=
  match v with
  | JNull => false
  | JBool b => b
  | JInt n => negb (n =? 0)
  | JFloat (S754_zero _) => false
  | JFloat _ => true
  | JStr s => str_truthy s
  | JArr items => match items with [] => false | _ :: _ => true end
  | JObj members => match members with [] => false | _ :: _ => true end
  end.

(** [d.get(k)] on the dict decoded from an object whose members are listed in
    document order: a repeated key keeps its last value; an absent key gives
    [None], which is [JNull] here. *)
Fixpoint dict_get (d : list (pystr * json)) (k : pystr) : json :=
  match d with
  | [] => JNull
  | (k', v) :: rest =>
      if existsb (fun kv => str_eqb (fst kv) k) rest then dict_get rest k
      else if str_eqb k' k then v else JNull
  end.

(** [x or y] *)
Definition py_or (x y : json) : json := if truthy x then x else y.

(** ** Exceptions and the error monad *)

Inductive exn :=
| AttributeError
| UnicodeEncodeError
| IntegrityError.

Definition result (A : Type) := (exn + A)%type.

Definition ret {A} (a : A) : result A := inr a.
Definition raise {A} (e : exn) : result A := inl e.
Definition bind {A B} (m : result A) (k : A -> result B) : result B :=
  match m with
  | inl e => inl e
  | inr a => k a
  end.

Notation "x <- m ;; k" := (bind m (fun x => k))
  (at level 61, m at next level, right associativity).

(** ** Binding the parameters of a statement *)

(** The code points UTF-8 encodes: all but the surrogates. *)
Definition encodable_char (c : N) : bool :=
  ((c <? 55296) || (57343 <? c) && (c <=? 1114111))%N.

Definition encodable (s : pystr) : bool := forallb encodable_char s.

(** What [db.execute(sql, params)] does with its text parameters before the
    statement runs. *)
Definition bind_parameters (params : list pystr) : result unit :=
  if forallb encodable params then ret tt else raise UnicodeEncodeError.

(** ** The schema of [init_db] *)

Module Session.
Record t := mk {
  id : Z;
  token : pystr;
  class_name : pystr;
  created_at : pystr
}.
End Session.

Module Attendance.
Record t := mk {
  id : Z;
  session_id : Z;
  student_id : pystr;
  student_name : pystr;
  marked_at : pystr
}.
End Attendance.

(** The database file.  A table lists its rows in the order they were
    inserted; [sessions_seq] and [attendance_seq] are the two rows of
    [sqlite_sequence] that AUTOINCREMENT maintains. *)
Record DB := mkDB {
  sessions : list Session.t;
  attendance : list Attendance.t;
  sessions_seq : Z;
  attendance_seq : Z
}.

Definition empty_db : DB := mkDB [] [] 0 0.

(** [init_db()]: both statements are CREATE TABLE IF NOT EXISTS, so an
    existing file is left as it is and a missing one starts empty. *)
Definition init_db (file : option DB) : DB :=
  match file with
  | Some db => db
  | None => empty_db
  end.

(** ** The SQL statements of the handlers *)

(** INTEGER PRIMARY KEY AUTOINCREMENT: one more than the largest rowid the
    table has ever held. *)
Definition next_rowid (seq : Z) (ids : list Z) : Z :=
  Z.max seq (fold_right Z.max 0 ids) + 1.

(** [SELECT ... FROM sessions WHERE token = ?] followed by [fetchone()]. *)
Definition select_session_by_token (tok : pystr) (db : DB) : option Session.t :=
  find (fun s => str_eqb (Session.token s) tok) (sessions db).

(** [INSERT INTO sessions(token, class_name, created_at) VALUES (?, ?, ?)]
    under [token TEXT UNIQUE]. *)
Definition insert_session (tok cls created : pystr) (db : DB) : result DB :=
  if existsb (fun s => str_eqb (Session.token s) tok) (sessions db)
  then raise IntegrityError
  else
    let rowid := next_rowid (sessions_seq db) (map Session.id (sessions db)) in
    ret (mkDB (sessions db ++ [Session.mk rowid tok cls created])
              (attendance db) rowid (attendance_seq db)).

Definition same_student (sid : Z) (student : pystr) (a : Attendance.t) : bool :=
  (Attendance.session_id a =? sid) && str_eqb (Attendance.student_id a) student.

(** [INSERT INTO attendance(session_id, student_id, student_name, marked_at)
    VALUES (?, ?, ?, ?)] under [UNIQUE(session_id, student_id)].  SQLite does
    not enforce the FOREIGN KEY clause unless the connection turns it on,
    which the application never does. *)
Definition insert_attendance (sid : Z) (student name marked : pystr) (db : DB)
  : result DB :=
  if existsb (same_student sid student) (attendance db)
  then raise IntegrityError
  else
    let rowid := next_rowid (attendance_seq db) (map Attendance.id (attendance db)) in
    ret (mkDB (sessions db)
              (attendance db ++ [Attendance.mk rowid sid student name marked])
              (sessions_seq db) rowid).

(** ORDER BY ... DESC, as an insertion sort: [ge x y] holds when [x] may
    come before [y]. *)
Section OrderBy.
Context {A : Type} (ge : A -> A -> bool).

Fixpoint insert_desc (x : A) (l : list A) : list A :=
  match l with
  | [] => [x]
  | y :: l' => if ge y x then y :: insert_desc x l' else x :: l
  end.

Definition order_by_desc (l : list A) : list A :=
  fold_right insert_desc [] l.
End OrderBy.

(** [SELECT id, token, class_name, created_at FROM sessions ORDER BY id DESC] *)
Definition select_sessions (db : DB) : list Session.t :=
  order_by_desc (fun a b => Session.id b <=? Session.id a) (sessions db).

Module AttendanceRow.
Record t := mk {
  student_id : pystr;
  student_name : pystr;
  marked_at : pystr
}.
End AttendanceRow.

Definition attendance_row (a : Attendance.t) : AttendanceRow.t :=
  AttendanceRow.mk (Attendance.student_id a) (Attendance.student_name a)
                   (Attendance.marked_at a).

(** [SELECT student_id, student_name, marked_at FROM attendance
     WHERE session_id = ? ORDER BY marked_at DESC] *)
Definition select_attendance (sid : Z) (db : DB) : list AttendanceRow.t :=
  order_by_desc
    (fun a b => str_leb (AttendanceRow.marked_at b) (AttendanceRow.marked_at a))
    (map attendance_row
         (filter (fun a => Attendance.session_id a =? sid) (attendance db))).

(** ** Responses *)

(** The template a handler renders, with the values it passes to it.  The
    session page and the QR image carry the two parts of the scan link,
    [request.host_url] and the token given to [url_for]. *)
Inductive Page :=
| HomePage (sessions : list Session.t)
| SessionPage (session : Session.t) (attendance : list AttendanceRow.t)
              (host_url token : pystr)
| ScanPage (token class_name : pystr).

(** The targets of [url_for] in redirects. *)
Inductive Endpoint :=
| HomeEndpoint
| SessionDetailEndpoint (token : pystr).

Inductive Response :=
| Render (page : Page)
| Redirect (target : Endpoint)
| Text (body : string) (status : Z)
| Json (ok : bool) (message : string) (status : Z)
| Png (host_url token : pystr)
| ServerError (e : exn).

(** The HTTP status of a response; an exception no handler catches is
    answered with 500. *)
Definition status_of (r : Response) : Z :=
  match r with
  | Render _ => 200
  | Redirect _ => 302
  | Text _ st => st
  | Json _ _ st => st
  | Png _ _ => 200
  | ServerError _ => 500
  end.

(** ** The route handlers *)

(** [GET /] *)
Definition home (db : DB) : Response * DB :=
  (Render (HomePage (select_sessions db)), db).

(** [request.form.get(key, default)], on the value the form has for the key. *)
Definition form_get (field : option pystr) (default : pystr) : pystr :=
  match field with
  | Some v => v
  | None => default
  end.

(** [POST /create-session].  [form_class_name] is the form field, [None]
    when the form has none; [tok] is the value [secrets.token_urlsafe(10)]
    returns and [now] the value of [datetime.utcnow()]. *)
Definition create_session (form_class_name : option pystr) (tok : pystr)
                          (now : datetime)
                          (db : DB) : Response * DB :=
  let class_name := strip (form_get form_class_name []) in
  if negb (str_truthy class_name) then (Redirect HomeEndpoint, db)
  else
    let created_at := isoformat now in
    match insert_session tok class_name created_at db with
    | inr db' => (Redirect (SessionDetailEndpoint tok), db')
    | inl e => (ServerError e, db)
    end.

(** [GET /session/<token>] *)
Definition session_detail (host_url tok : pystr) (db : DB) : Response * DB :=
  match select_session_by_token tok db with
  | None => (Text "Session not found" 404, db)
  | Some session =>
      (Render (SessionPage session
                           (select_attendance (Session.id session) db)
                           host_url tok), db)
  end.

(** [GET /qr/<token>.png] *)
Definition qr_code (host_url tok : pystr) (db : DB) : Response * DB :=
  (Png host_url tok, db).

(** [GET /scan/<token>] *)
Definition scan_page (tok : pystr) (db : DB) : Response * DB :=
  match select_session_by_token tok db with
  | None => (Text "Session not found" 404, db)
  | Some session => (Render (ScanPage tok (Session.class_name session)), db)
  end.

(** [request.get_json(silent=True) or {}]: [body] is what [get_json] returns,
    [None] for a body that is absent or does not parse.  Calling [.get] on
    anything but a dict raises. *)
Definition get_payload (body : option json) : result (list (pystr * json)) :=
  match py_or (match body with Some v => v | None => JNull end) (JObj []) with
  | JObj members => ret members
  | _ => raise AttributeError
  end.

(** [(payload.get(k) or "").strip()]: only a [str] has [strip]. *)
Definition get_field (payload : list (pystr * json)) (k : string) : result pystr :=
  match py_or (dict_get payload (u k)) (JStr []) with
  | JStr s => ret (strip s)
  | _ => raise AttributeError
  end.

(** The first four statements of [mark_attendance]: the payload and its three
    trimmed fields, or the exception that stops the handler there. *)
Definition mark_fields (body : option json) : result (pystr * pystr * pystr) :=
  payload <- get_payload body ;;
  token <- get_field payload "token" ;;
  student_id <- get_field payload "student_id" ;;
  student_name <- get_field payload "student_name" ;;
  ret (token, student_id, student_name).

(** [POST /api/mark-attendance] *)
Definition mark_attendance (body : option json) (now : datetime) (db : DB)
  : Response * DB :=
  match mark_fields body with
  | inl e => (ServerError e, db)
  | inr (token, student_id, student_name) =>
      if negb (str_truthy token) || negb (str_truthy student_id)
         || negb (str_truthy student_name)
      then (Json false "token, student_id and student_name are required" 400, db)
      else
        match bind_parameters [token] with
        | inl e => (ServerError e, db)
        | inr _ =>
            match select_session_by_token token db with
            | None => (Json false "Invalid session token" 404, db)
            | Some session =>
                let marked_at := isoformat now in
                match (_ <- bind_parameters [student_id; student_name; marked_at] ;;
                       insert_attendance (Session.id session) student_id
                                         student_name marked_at db) with
                | inr db' => (Json true "Attendance marked successfully" 200, db')
                | inl IntegrityError =>
                    (Json false "Attendance already marked for this student" 409,
                     db)
                | inl e => (ServerError e, db)
                end
            end
        end
  end.

(** ** The application as a transition system *)

Inductive Request :=
| GetHome
| PostCreateSession (form_class_name : option pystr) (tok : pystr)
                    (now : datetime)
| GetSessionDetail (host_url tok : pystr)
| GetQrCode (host_url tok : pystr)
| GetScanPage (tok : pystr)
| PostMarkAttendance (body : option json) (now : datetime).

Definition handle (req : Request) (db : DB) : Response * DB :=
  match req with
  | GetHome => home db
  | PostCreateSession f tok now => create_session f tok now db
  | GetSessionDetail h tok => session_detail h tok db
  | GetQrCode h tok => qr_code h tok db
  | GetScanPage tok => scan_page tok db
  | PostMarkAttendance body now => mark_attendance body now db
  end.

(** The states the application can be in: it starts on a fresh file and
    serves one request after another. *)
Inductive reachable : DB -> Prop :=
| reachable_init : reachable (init_db None)
| reachable_step req db : reachable db -> reachable (snd (handle req db)).

(** The JSON body [{"token": ..., "student_id": ..., "student_name": ...}]. *)
Definition mark_body (token student_id student_name : pystr) : option json :=
  Some (JObj [(u "token", JStr token);
              (u "student_id", JStr student_id);
              (u "student_name", JStr student_name)]).

(** Number of attendance rows of one session. *)
Definition attendance_count (sid : Z) (db : DB) : nat :=
  List.length (filter (fun a => Attendance.session_id a =? sid) (attendance db)).

(** The uniqueness the schema declares on [attendance]. *)
Definition attendance_key (a : Attendance.t) : Z * pystr :=
  (Attendance.session_id a, Attendance.student_id a).

Definition unique_attendance (db : DB) : Prop :=
  NoDup (map attendance_key (attendance db)).

(** Rowids of [sessions] grow with the order of insertion. *)
Definition sessions_in_order (db : DB) : Prop :=
  StronglySorted Z.lt (map Session.id (sessions db)).

(** On timestamps written by [isoformat], a row that comes first was marked
    no earlier than a row that comes after it. *)
Definition marked_no_earlier (r1 r2 : AttendanceRow.t) : Prop :=
  forall t1 t2,
    datetime_in_range t1 -> datetime_in_range t2 ->
    AttendanceRow.marked_at r1 = isoformat t1 ->
    AttendanceRow.marked_at r2 = isoformat t2 ->
    datetime_leb t2 t1 = true.

(** ** A run of the application, used to instantiate the properties *)

Definition ex_token : pystr := u "Zm9vYmFyMTIzNA".

Definition ex_t0 : datetime := mk_datetime 2024 1 1 10 0 0 120034.
Definition ex_t1 : datetime := mk_datetime 2024 1 1 10 5 0 400210.
Definition ex_t2 : datetime := mk_datetime 2024 1 1 10 6 30 7.
Definition ex_t3 : datetime := mk_datetime 2024 1 2 9 0 0 999999.

Definition ex_create : Request :=
  PostCreateSession (Some (u "Algorithms 101")) ex_token ex_t0.

Definition ex_mark : Request :=
  PostMarkAttendance (mark_body ex_token (u "S1") (u "Ada")) ex_t1.

Definition ex_mark_late : Request :=
  PostMarkAttendance (mark_body ex_token (u "S2") (u "Grace")) ex_t2.

Definition ex_token2 : pystr := u "YmFyZm9vNDMyMQ".

Definition ex_create2 : Request :=
  PostCreateSession (Some (u " Physics ")) ex_token2 ex_t3.

Definition ex_mark_physics : Request :=
  PostMarkAttendance (mark_body ex_token2 (u "S1") (u "Ada")) ex_t3.

(** A text with a lone surrogate, as [json.loads] reads the escape of
    U+D800. *)
Definition ex_surrogate : pystr := [55296%N].

Definition ex_db1 : DB := snd (handle ex_create (init_db None)).
Definition ex_db2 : DB := snd (handle ex_mark ex_db1).
Definition ex_db3 : DB := snd (handle ex_mark_late ex_db2).
Definition ex_db4 : DB := snd (handle ex_create2 ex_db3).
Definition ex_db5 : DB := snd (handle ex_mark_physics ex_db4).

(** ** Runs, and what they keep *)

(** The database after a sequence of requests served one after another. *)
Fixpoint run (reqs : list Request) (db : DB) : DB :=
  match reqs with
  | [] => db
  | req :: rest => run rest (snd (handle req db))
  end.

(** A text that neither starts nor ends with whitespace. *)
Definition no_outer_space (s : pystr) : Prop :=
  (forall c t, s = c :: t -> is_space c = false) /\
  (forall c t, s = t ++ [c] -> is_space c = false).

(** A stored value as the handlers write it: not empty, and trimmed. *)
Definition well_trimmed (s : pystr) : Prop := s <> [] /\ no_outer_space s.

Definition stored_values_trimmed (db : DB) : Prop :=
  Forall (fun s => well_trimmed (Session.class_name s)) (sessions db) /\
  Forall (fun a => well_trimmed (Attendance.student_id a) /\
                   well_trimmed (Attendance.student_name a)) (attendance db).

(** Every timestamp of the database was written by [isoformat]. *)
Definition stored_times_iso (db : DB) : Prop :=
  Forall (fun s => exists t, Session.created_at s = isoformat t) (sessions db) /\
  Forall (fun a => exists t, Attendance.marked_at a = isoformat t) (attendance db).

(** [token TEXT UNIQUE] *)
Definition tokens_unique (db : DB) : Prop :=
  NoDup (map Session.token (sessions db)).

(** [FOREIGN KEY(session_id) REFERENCES sessions(id)] *)
Definition references_valid (db : DB) : Prop :=
  Forall (fun a => In (Attendance.session_id a) (map Session.id (sessions db)))
         (attendance db).

(** Rowids of a table: positive, growing with insertion, and not above the
    table's row of [sqlite_sequence]. *)
Definition rowids_ok (seq : Z) (ids : list Z) : Prop :=
  StronglySorted Z.lt ids /\ Forall (fun i => 0 < i <= seq) ids.

Definition primary_keys_ok (db : DB) : Prop :=
  rowids_ok (sessions_seq db) (map Session.id (sessions db)) /\
  rowids_ok (attendance_seq db) (map Attendance.id (attendance db)).

(** The two answers that report a row written: the redirect to the page of
    the new session, and [{"ok": true}]. *)
Definition reports_write (r : Response) : bool :=
  match r with
  | Redirect (SessionDetailEndpoint _) => true
  | Json true _ _ => true
  | _ => false
  end.




(** ** The connection of a request: [get_db] and [close_db] *)

(** A connection [sqlite3.connect] returned, with whether its [row_factory]
    was set to [sqlite3.Row]. *)
Record Conn := mkConn {
  conn_id : nat;
  row_factory_is_row : bool
}.

(** The application context [g] of a request, with the connections that are
    open in the process and the number of calls of [sqlite3.connect] so far,
    which names the next connection. *)
Record Ctx := mkCtx {
  g_db : option Conn;
  open_conns : list nat;
  connects : nat
}.

Definition get_db (c : Ctx) : Conn * Ctx :=
  match g_db c with
  | Some conn => (conn, c)
  | None =>
      let conn := mkConn (connects c) true in
      (conn, mkCtx (Some conn) (connects c :: open_conns c) (S (connects c)))
  end.

Definition close_db (c : Ctx) : Ctx :=
  match g_db c with
  | Some conn =>
      mkCtx None (remove Nat.eq_dec (conn_id conn) (open_conns c)) (connects c)
  | None => c
  end.

(** [n] calls of [get_db] in one request, with the connections they return. *)
Fixpoint get_db_times (n : nat) (c : Ctx) : list Conn * Ctx :=
  match n with
  | O => ([], c)
  | S n' =>
      let (conn, c1) := get_db c in
      let (conns, c2) := get_db_times n' c1 in
      (conn :: conns, c2)
  end.

(** * Properties *)

(** ** Strings *)

Lemma str_eqb_eq (a b : pystr) : str_eqb a b = true <-> a = b.
Proof.
  revert b; induction a as [|x a IH]; intros [|y b]; simpl;
    try (split; [discriminate | congruence]).
  - split; reflexivity.
  - rewrite andb_true_iff, N.eqb_eq, IH.
    split; [intros [-> ->]; reflexivity | intros H; inversion H; auto].
Qed.

Lemma str_eqb_refl (a : pystr) : str_eqb a a = true.
Proof. apply str_eqb_eq; reflexivity. Qed.

Lemma str_eqb_neq (a b : pystr) : str_eqb a b = false <-> a <> b.
Proof.
  rewrite <- str_eqb_eq. destruct (str_eqb a b); split; congruence.
Qed.

Lemma str_leb_total (a b : pystr) : str_leb a b = false -> str_leb b a = true.
Proof.
  revert b; induction a as [|x a IH]; intros [|y b]; simpl; try congruence.
  intros H. apply orb_false_iff in H as [Hlt H].
  apply N.ltb_ge in Hlt.
  destruct (N.eqb_spec x y) as [->|Hne].
  - simpl in H. rewrite N.eqb_refl, (IH _ H). apply orb_true_r.
  - assert (y < x)%N as Hyx by lia.
    apply N.ltb_lt in Hyx. rewrite Hyx. reflexivity.
Qed.

Lemma str_leb_trans (a b c : pystr) :
  str_leb a b = true -> str_leb b c = true -> str_leb a c = true.
Proof.
  revert b c; induction a as [|x a IH]; intros [|y b] [|z c]; simpl;
    try congruence.
  intros H1 H2.
  apply orb_true_iff in H1 as [H1|H1]; apply orb_true_iff in H2 as [H2|H2];
    rewrite ?andb_true_iff, ?N.ltb_lt, ?N.eqb_eq in *.
  - replace (x <? z)%N with true by (symmetry; apply N.ltb_lt; lia).
    reflexivity.
  - destruct H2 as [<- _].
    replace (x <? y)%N with true by (symmetry; apply N.ltb_lt; lia).
    reflexivity.
  - destruct H1 as [-> _].
    replace (y <? z)%N with true by (symmetry; apply N.ltb_lt; lia).
    reflexivity.
  - destruct H1 as [-> H1], H2 as [-> H2].
    rewrite N.eqb_refl, (IH _ _ H1 H2). apply orb_true_r.
Qed.

(** A string strips to nothing exactly when it is made of whitespace. *)
Lemma lstrip_nil (s : pystr) : lstrip s = [] <-> forallb is_space s = true.
Proof.
  induction s as [|c s IH]; simpl; [tauto|].
  destruct (is_space c); simpl; [exact IH | split; discriminate].
Qed.

Lemma strip_nil (s : pystr) : strip s = [] <-> forallb is_space s = true.
Proof.
  unfold strip, rstrip. split.
  - intros H. apply (f_equal (@rev N)) in H.
    rewrite rev_involutive in H. simpl in H.
    apply lstrip_nil in H.
    destruct (lstrip s) as [|c t] eqn:E; [apply lstrip_nil; exact E|].
    exfalso. assert (is_space c = false) as Hc.
    { clear -E. induction s as [|d s IH]; simpl in E; [discriminate|].
      destruct (is_space d) eqn:Ed; [auto | congruence]. }
    rewrite forallb_forall in H.
    rewrite (H c) in Hc; [discriminate|]. apply in_rev.
    rewrite rev_involutive. left; reflexivity.
  - intros H. apply lstrip_nil in H. rewrite H. reflexivity.
Qed.

(** ** Timestamps: the text order of [isoformat] is the order of time *)

Section Isoformat.

#[local] Ltac Zify.zify_post_hook ::= Z.to_euclidean_division_equations.

(** Texts that start with blocks of one length are ordered by the blocks,
    then by what follows. *)
Lemma str_leb_app (a a' b b' : pystr) :
  List.length a = List.length a' ->
  str_leb (a ++ b) (a' ++ b')
  = negb (str_leb a' a) || (str_eqb a a' && str_leb b b').
Proof.
  revert a'; induction a as [|x a IH]; intros [|y a'] H; simpl in *;
    try discriminate.
  - reflexivity.
  - injection H as H. rewrite (IH _ H).
    destruct (N.ltb_spec x y), (N.eqb_spec x y), (N.ltb_spec y x),
      (N.eqb_spec y x); try lia; simpl; try reflexivity.
Qed.

Lemma str_eqb_app (a a' b b' : pystr) :
  List.length a = List.length a' ->
  str_eqb (a ++ b) (a' ++ b') = str_eqb a a' && str_eqb b b'.
Proof.
  revert a'; induction a as [|x a IH]; intros [|y a'] H; simpl in *;
    try discriminate.
  - reflexivity.
  - injection H as H. rewrite (IH _ H). apply andb_assoc.
Qed.

(** Case analysis on every comparison of the goal, closed by arithmetic. *)
Ltac decide_comparisons :=
  repeat match goal with
  | |- context [(?a <? ?b)%N] => destruct (N.ltb_spec a b)
  | |- context [(?a =? ?b)%N] => destruct (N.eqb_spec a b)
  | |- context [(?a <=? ?b)%N] => destruct (N.leb_spec a b)
  end; cbn [orb andb negb]; try reflexivity; try lia.

Lemma digits2_small (m : N) :
  (m < 100)%N -> digits2 m = [(48 + m / 10)%N; (48 + m mod 10)%N].
Proof.
  intros Hm. unfold digits2, digit.
  rewrite (N.mod_small (m / 10) 10) by lia. reflexivity.
Qed.

Lemma digits2_leb (m n : N) :
  (m < 100)%N -> (n < 100)%N ->
  str_leb (digits2 m) (digits2 n) = (m <=? n)%N.
Proof.
  intros Hm Hn. rewrite !digits2_small by assumption. cbn [str_leb].
  decide_comparisons.
Qed.

Lemma digits2_eqb (m n : N) :
  (m < 100)%N -> (n < 100)%N ->
  str_eqb (digits2 m) (digits2 n) = (m =? n)%N.
Proof.
  intros Hm Hn. rewrite !digits2_small by assumption. cbn [str_eqb].
  decide_comparisons.
Qed.

Lemma digits4_split (m : N) :
  digits4 m = digits2 (m / 100) ++ digits2 (m mod 100).
Proof.
  unfold digits4, digits2. cbn [app].
  assert (digit (m / 1000) = digit (m / 100 / 10)) as -> by (unfold digit; lia).
  assert (digit (m / 10) = digit (m mod 100 / 10)) as -> by (unfold digit; lia).
  assert (digit m = digit (m mod 100)) as -> by (unfold digit; lia).
  reflexivity.
Qed.

Lemma digits4_leb (m n : N) :
  (m < 10000)%N -> (n < 10000)%N ->
  str_leb (digits4 m) (digits4 n) = (m <=? n)%N.
Proof.
  intros Hm Hn. rewrite !digits4_split, str_leb_app by reflexivity.
  rewrite !digits2_leb, digits2_eqb by lia.
  decide_comparisons.
Qed.

Lemma digits4_eqb (m n : N) :
  (m < 10000)%N -> (n < 10000)%N ->
  str_eqb (digits4 m) (digits4 n) = (m =? n)%N.
Proof.
  intros Hm Hn. rewrite !digits4_split, str_eqb_app by reflexivity.
  rewrite !digits2_eqb by lia.
  decide_comparisons.
Qed.

Lemma str_leb_same_prefix (c : string) (x y : pystr) :
  str_leb (u c ++ x) (u c ++ y) = str_leb x y.
Proof.
  rewrite str_leb_app by reflexivity.
  assert (str_leb (u c) (u c) = true) as E.
  { generalize (u c). intros l; induction l as [|k l IH]; simpl; [reflexivity|].
    rewrite N.eqb_refl, IH. apply orb_true_r. }
  rewrite E, str_eqb_refl. reflexivity.
Qed.

(** [isoformat] has a fixed width and its fields run from the year to the
    second, so the BINARY order of two timestamps is their order in time. *)
Lemma isoformat_order (a b : datetime) :
  datetime_in_range a -> datetime_in_range b ->
  str_leb (isoformat a) (isoformat b) = datetime_leb a b.
Proof.
  unfold datetime_in_range, isoformat, datetime_leb.
  intros Ha Hb.
  rewrite str_leb_app, str_leb_same_prefix by reflexivity.
  rewrite str_leb_app, str_leb_same_prefix by reflexivity.
  rewrite str_leb_app, str_leb_same_prefix by reflexivity.
  rewrite str_leb_app, str_leb_same_prefix by reflexivity.
  rewrite str_leb_app, str_leb_same_prefix by reflexivity.
  rewrite digits4_leb, digits4_eqb by lia.
  rewrite !digits2_leb, !digits2_eqb by lia.
  rewrite <- !N.ltb_antisym. reflexivity.
Qed.

End Isoformat.

(** ** ORDER BY *)

Section OrderByFacts.
Context {A : Type} (ge : A -> A -> bool).

Lemma insert_desc_perm (x : A) (l : list A) :
  Permutation (insert_desc ge x l) (x :: l).
Proof.
  induction l as [|y l IH]; simpl; [reflexivity|].
  destruct (ge y x); [|reflexivity].
  rewrite IH. apply perm_swap.
Qed.

Lemma order_by_desc_perm (l : list A) : Permutation (order_by_desc ge l) l.
Proof.
  induction l as [|x l IH]; simpl; [reflexivity|].
  rewrite insert_desc_perm. constructor. exact IH.
Qed.

Hypothesis ge_total : forall a b, ge a b = false -> ge b a = true.
Hypothesis ge_trans : forall a b c, ge a b = true -> ge b c = true -> ge a c = true.

Lemma insert_desc_sorted (x : A) (l : list A) :
  StronglySorted (fun a b => ge a b = true) l ->
  StronglySorted (fun a b => ge a b = true) (insert_desc ge x l).
Proof.
  induction 1 as [|y l Hs IH Hy]; simpl.
  - repeat constructor.
  - destruct (ge y x) eqn:E.
    + constructor; [exact IH|].
      eapply Permutation_Forall; [symmetry; apply insert_desc_perm|].
      constructor; assumption.
    + apply ge_total in E.
      constructor; [constructor; assumption|].
      constructor; [exact E|].
      eapply Forall_impl; [|exact Hy].
      intros z Hz. exact (ge_trans _ _ _ E Hz).
Qed.

Lemma order_by_desc_sorted (l : list A) :
  StronglySorted (fun a b => ge a b = true) (order_by_desc ge l).
Proof.
  induction l as [|x l IH]; simpl; [constructor|].
  apply insert_desc_sorted. exact IH.
Qed.

End OrderByFacts.

Lemma StronglySorted_weaken {A} (P Q : A -> A -> Prop) (l : list A) :
  (forall a b, P a b -> Q a b) -> StronglySorted P l -> StronglySorted Q l.
Proof.
  intros HPQ. induction 1 as [|x l _ IH Hx]; constructor; [exact IH|].
  eapply Forall_impl; [|exact Hx]. intros b. apply HPQ.
Qed.

(** A row that every row of an ordered result precedes is put last. *)
Lemma insert_desc_last {A} (ge : A -> A -> bool) (x : A) (l : list A) :
  Forall (fun y => ge y x = true) l -> insert_desc ge x l = l ++ [x].
Proof.
  induction 1 as [|y l Hy _ IH]; simpl; [reflexivity|].
  rewrite Hy, IH. reflexivity.
Qed.

(** Rows stored by increasing key come back reversed. *)
Lemma order_by_desc_rev {A} (key : A -> Z) (l : list A) :
  StronglySorted Z.lt (map key l) ->
  order_by_desc (fun a b => key b <=? key a) l = rev l.
Proof.
  induction l as [|x l IH]; simpl; intros H; [reflexivity|].
  inversion H as [|? ? Hs Hx]; subst.
  rewrite (IH Hs). apply insert_desc_last.
  apply Forall_forall. intros y Hy. apply Z.leb_le.
  rewrite Forall_forall in Hx.
  specialize (Hx (key y) (in_map key _ _ (proj2 (in_rev l y) Hy))). lia.
Qed.

(** ** The two INSERT statements *)

Lemma next_rowid_above (seq : Z) (ids : list Z) :
  Forall (fun i => i < next_rowid seq ids) ids.
Proof.
  unfold next_rowid. induction ids as [|i ids IH]; simpl; constructor.
  - lia.
  - eapply Forall_impl; [|exact IH]. simpl. intros; lia.
Qed.

Lemma existsb_token (tok : pystr) (l : list Session.t) :
  existsb (fun s => str_eqb (Session.token s) tok) l = true
  <-> In tok (map Session.token l).
Proof.
  rewrite existsb_exists, in_map_iff.
  split; intros [s [H1 H2]]; exists s.
  - apply str_eqb_eq in H2. tauto.
  - rewrite H1, str_eqb_refl. tauto.
Qed.

Lemma existsb_same_student (sid : Z) (student : pystr) (l : list Attendance.t) :
  existsb (same_student sid student) l = true
  <-> In (sid, student) (map attendance_key l).
Proof.
  rewrite existsb_exists, in_map_iff. unfold same_student, attendance_key.
  split; intros [a [H1 H2]]; exists a.
  - apply andb_true_iff in H2 as [H2 H3].
    apply Z.eqb_eq in H2. apply str_eqb_eq in H3. subst. tauto.
  - inversion H1; subst. rewrite Z.eqb_refl, str_eqb_refl. tauto.
Qed.

Lemma insert_session_ok (tok cls created : pystr) (db db' : DB) :
  insert_session tok cls created db = inr db' ->
  ~ In tok (map Session.token (sessions db)) /\
  db' = mkDB (sessions db ++
                [Session.mk (next_rowid (sessions_seq db)
                                        (map Session.id (sessions db)))
                            tok cls created])
             (attendance db)
             (next_rowid (sessions_seq db) (map Session.id (sessions db)))
             (attendance_seq db).
Proof.
  unfold insert_session.
  destruct (existsb _ _) eqn:E; [discriminate|].
  intros H; inversion H; subst. split; [|reflexivity].
  rewrite <- existsb_token, E. discriminate.
Qed.

Lemma insert_session_fresh (tok cls created : pystr) (db : DB) :
  ~ In tok (map Session.token (sessions db)) ->
  exists db', insert_session tok cls created db = inr db'.
Proof.
  intros H. unfold insert_session.
  destruct (existsb _ _) eqn:E; [|eexists; reflexivity].
  apply existsb_token in E. contradiction.
Qed.

Lemma insert_session_taken (tok cls created : pystr) (db : DB) :
  In tok (map Session.token (sessions db)) ->
  insert_session tok cls created db = inl IntegrityError.
Proof.
  intros H. apply existsb_token in H. unfold insert_session.
  rewrite H. reflexivity.
Qed.

Lemma insert_attendance_ok (sid : Z) (student name marked : pystr) (db db' : DB) :
  insert_attendance sid student name marked db = inr db' ->
  ~ In (sid, student) (map attendance_key (attendance db)) /\
  db' = mkDB (sessions db)
             (attendance db ++
                [Attendance.mk (next_rowid (attendance_seq db)
                                           (map Attendance.id (attendance db)))
                               sid student name marked])
             (sessions_seq db)
             (next_rowid (attendance_seq db) (map Attendance.id (attendance db))).
Proof.
  unfold insert_attendance.
  destruct (existsb _ _) eqn:E; [discriminate|].
  intros H; inversion H; subst. split; [|reflexivity].
  rewrite <- existsb_same_student, E. discriminate.
Qed.

Lemma insert_attendance_fresh (sid : Z) (student name marked : pystr) (db : DB) :
  ~ In (sid, student) (map attendance_key (attendance db)) ->
  exists db', insert_attendance sid student name marked db = inr db'.
Proof.
  intros H. unfold insert_attendance.
  destruct (existsb _ _) eqn:E; [|eexists; reflexivity].
  apply existsb_same_student in E. contradiction.
Qed.

Lemma insert_attendance_taken (sid : Z) (student name marked : pystr) (db : DB) :
  In (sid, student) (map attendance_key (attendance db)) ->
  insert_attendance sid student name marked db = inl IntegrityError.
Proof.
  intros H. apply existsb_same_student in H. unfold insert_attendance.
  rewrite H. reflexivity.
Qed.

Lemma insert_attendance_error (sid : Z) (student name marked : pystr) (db : DB)
      (e : exn) :
  insert_attendance sid student name marked db = inl e -> e = IntegrityError.
Proof.
  unfold insert_attendance. destruct (existsb _ _); inversion 1; reflexivity.
Qed.

(** ** The steps of [mark_attendance] *)

Lemma encodable_digit (n : N) : encodable_char (digit n) = true.
Proof.
  unfold encodable_char, digit.
  pose proof (N.mod_lt n 10) as H.
  replace (48 + n mod 10 <? 55296)%N with true; [reflexivity|].
  symmetry. apply N.ltb_lt. lia.
Qed.

(** A timestamp is made of ASCII digits and separators. *)
Lemma encodable_isoformat (t : datetime) : encodable (isoformat t) = true.
Proof.
  unfold encodable, isoformat. rewrite !forallb_app.
  unfold digits4, digits2. cbn [forallb].
  rewrite !encodable_digit. reflexivity.
Qed.

Lemma bind_parameters_ok (params : list pystr) :
  forallb encodable params = true -> bind_parameters params = inr tt.
Proof. unfold bind_parameters. intros ->. reflexivity. Qed.

Lemma bind_parameters_inv (params : list pystr) (x : unit) :
  bind_parameters params = inr x -> forallb encodable params = true.
Proof.
  unfold bind_parameters. destruct (forallb encodable params);
    [reflexivity | discriminate].
Qed.

Lemma bind_parameters_error (params : list pystr) (e : exn) :
  bind_parameters params = inl e ->
  e = UnicodeEncodeError /\ forallb encodable params = false.
Proof.
  unfold bind_parameters. destruct (forallb encodable params);
    inversion 1. split; reflexivity.
Qed.

Lemma str_truthy_true (s : pystr) : str_truthy s = true <-> s <> [].
Proof. destruct s; simpl; split; congruence. Qed.

(** The answers of [mark_attendance]: an exception or a refusal, which write
    nothing, or the success of the INSERT after every check. *)
Lemma mark_attendance_inv (body : option json) (now : datetime) (db : DB) :
  (exists e, mark_attendance body now db = (ServerError e, db))
  \/ (exists msg st, mark_attendance body now db = (Json false msg st, db))
  \/ (exists tok student name session db',
        mark_fields body = inr (tok, student, name) /\
        (tok <> [] /\ student <> [] /\ name <> []) /\
        (encodable tok = true /\ encodable student = true
         /\ encodable name = true) /\
        select_session_by_token tok db = Some session /\
        insert_attendance (Session.id session) student name (isoformat now) db
        = inr db' /\
        mark_attendance body now db
        = (Json true "Attendance marked successfully" 200, db')).
Proof.
  unfold mark_attendance.
  destruct (mark_fields body) as [e|[[tok student] name]] eqn:Ef;
    [left; eexists; reflexivity|].
  destruct (str_truthy tok) eqn:Et;
    [|right; left; eexists; eexists; reflexivity].
  destruct (str_truthy student) eqn:Es;
    [|right; left; eexists; eexists; reflexivity].
  destruct (str_truthy name) eqn:En;
    [|right; left; eexists; eexists; reflexivity].
  cbn [negb orb].
  destruct (bind_parameters [tok]) as [e|[]] eqn:Eb1;
    [left; eexists; reflexivity|].
  apply bind_parameters_inv in Eb1. cbn [forallb] in Eb1.
  rewrite andb_true_r in Eb1.
  destruct (select_session_by_token tok db) as [session|] eqn:Esel;
    [|right; left; eexists; eexists; reflexivity].
  cbv zeta. unfold bind.
  destruct (bind_parameters [student; name; isoformat now]) as [e|[]] eqn:Eb2.
  { apply bind_parameters_error in Eb2 as [-> _].
    left; eexists; reflexivity. }
  apply bind_parameters_inv in Eb2. cbn [forallb] in Eb2.
  apply andb_true_iff in Eb2 as [Hs Eb2].
  apply andb_true_iff in Eb2 as [Hn _].
  destruct (insert_attendance _ _ _ _ _) as [e|db'] eqn:Ei.
  - apply insert_attendance_error in Ei. subst e.
    right; left; eexists; eexists; reflexivity.
  - right; right. exists tok, student, name, session, db'.
    rewrite str_truthy_true in Et, Es, En. tauto.
Qed.

(** ** What a request does to the database *)

(** A request leaves the database as it is, or commits one INSERT. *)
Lemma handle_cases (req : Request) (db : DB) :
  snd (handle req db) = db
  \/ (exists tok cls created,
        insert_session tok cls created db = inr (snd (handle req db)))
  \/ (exists sid student name marked,
        insert_attendance sid student name marked db = inr (snd (handle req db))).
Proof.
  destruct req as [|f tok now|h tok|h tok|tok|body now]; simpl.
  - left; reflexivity.
  - unfold create_session.
    destruct (negb _); [left; reflexivity|].
    destruct (insert_session _ _ _ _) as [e|db'] eqn:E; [left; reflexivity|].
    right; left. eauto.
  - unfold session_detail.
    destruct (select_session_by_token _ _); left; reflexivity.
  - left; reflexivity.
  - unfold scan_page.
    destruct (select_session_by_token _ _); left; reflexivity.
  - destruct (mark_attendance_inv body now db)
      as [[e ->]|[(msg & st & ->)
                 |(tok & student & name & s & db' & _ & _ & _ & _ & E & ->)]].
    + left; reflexivity.
    + left; reflexivity.
    + right; right. simpl. eauto.
Qed.

(** ** Frame: stored rows stay *)

(** C9: no request changes or removes a stored session or attendance row;
    the tables after a request are the tables before it, followed by at most
    one new row. *)
Theorem stored_rows_are_kept (req : Request) (db : DB) :
  exists new_sessions new_attendance,
    sessions (snd (handle req db)) = sessions db ++ new_sessions /\
    attendance (snd (handle req db)) = attendance db ++ new_attendance /\
    (List.length new_sessions + List.length new_attendance <= 1)%nat.
Proof.
  destruct (handle_cases req db) as [H|[(tok & cls & created & H)|(sid & st & nm & mk & H)]].
  - exists [], []. rewrite H, !app_nil_r. simpl. auto.
  - apply insert_session_ok in H as [_ ->].
    eexists [_], []. simpl. rewrite app_nil_r. auto.
  - apply insert_attendance_ok in H as [_ ->].
    eexists [], [_]. simpl. rewrite app_nil_r. auto.
Qed.

(** ** The uniqueness invariant *)

Lemma unique_attendance_step (req : Request) (db : DB) :
  unique_attendance db -> unique_attendance (snd (handle req db)).
Proof.
  unfold unique_attendance. intros Hu.
  destruct (handle_cases req db) as [H|[(tok & cls & created & H)|(sid & st & nm & mk & H)]].
  - rewrite H. exact Hu.
  - apply insert_session_ok in H as [_ ->]. exact Hu.
  - apply insert_attendance_ok in H as [Hnew ->]. simpl.
    rewrite map_app. simpl.
    apply NoDup_rev in Hu. rewrite <- rev_involutive.
    apply NoDup_rev. rewrite rev_app_distr. simpl.
    constructor; [|exact Hu].
    rewrite <- in_rev. exact Hnew.
Qed.

(** C6: in every reachable state the attendance table holds at most one row
    for a pair (session_id, student_id), and every request, reading or
    writing, keeps it so. *)
Theorem unique_attendance_invariant :
  (forall db, reachable db -> unique_attendance db) /\
  (forall req db, unique_attendance db -> unique_attendance (snd (handle req db))).
Proof.
  split.
  - induction 1 as [|req db _ IH].
    + constructor.
    + apply unique_attendance_step. exact IH.
  - exact unique_attendance_step.
Qed.

Lemma unique_attendance_invariant_witness :
  reachable ex_db2 /\ unique_attendance ex_db2 /\
  unique_attendance (snd (handle ex_mark ex_db2)).
Proof.
  assert (reachable ex_db2) as R
    by (apply reachable_step, reachable_step, reachable_init).
  split; [exact R|]. split.
  - exact (proj1 unique_attendance_invariant ex_db2 R).
  - apply (proj2 unique_attendance_invariant ex_mark ex_db2).
    exact (proj1 unique_attendance_invariant ex_db2 R).
Defined.

(** ** Listing sessions *)

Lemma sessions_in_order_step (req : Request) (db : DB) :
  sessions_in_order db -> sessions_in_order (snd (handle req db)).
Proof.
  unfold sessions_in_order. intros Hs.
  destruct (handle_cases req db) as [H|[(tok & cls & created & H)|(sid & st & nm & mk & H)]].
  - rewrite H. exact Hs.
  - apply insert_session_ok in H as [_ ->]. simpl.
    rewrite map_app. simpl.
    pose proof (next_rowid_above (sessions_seq db) (map Session.id (sessions db)))
      as Habove.
    revert Hs Habove.
    generalize (next_rowid (sessions_seq db) (map Session.id (sessions db))) as r.
    generalize (map Session.id (sessions db)) as ids.
    induction ids as [|i ids IH]; simpl; intros r Hs Habove.
    + repeat constructor.
    + inversion Hs; subst. inversion Habove; subst.
      constructor; [apply IH; assumption|].
      apply Forall_app. split; [assumption|]. repeat constructor. assumption.
  - apply insert_attendance_ok in H as [_ ->]. exact Hs.
Qed.

Lemma reachable_sessions_in_order (db : DB) :
  reachable db -> sessions_in_order db.
Proof.
  induction 1 as [|req db _ IH].
  - constructor.
  - apply sessions_in_order_step. exact IH.
Qed.

(** C7: the home page lists every stored session, ordered by decreasing id;
    in a reachable state that is the stored sessions from the last created
    to the first. *)
Theorem home_lists_sessions_latest_first :
  (forall db,
      Permutation (select_sessions db) (sessions db) /\
      StronglySorted (fun a b => Session.id b <= Session.id a) (select_sessions db) /\
      home db = (Render (HomePage (select_sessions db)), db)) /\
  (forall db, reachable db ->
      home db = (Render (HomePage (rev (sessions db))), db)).
Proof.
  split.
  - intros db. split; [apply order_by_desc_perm|]. split; [|reflexivity].
    unfold select_sessions.
    eapply StronglySorted_weaken;
      [|apply (order_by_desc_sorted (fun a b => Session.id b <=? Session.id a))].
    + intros a b H. apply Z.leb_le. exact H.
    + intros a b H. apply Z.leb_gt in H. apply Z.leb_le. lia.
    + intros a b c H1 H2. apply Z.leb_le in H1, H2. apply Z.leb_le. lia.
  - intros db R. unfold home, select_sessions.
    rewrite (order_by_desc_rev Session.id);
      [reflexivity | exact (reachable_sessions_in_order db R)].
Qed.

Lemma home_lists_sessions_latest_first_witness :
  reachable ex_db5 /\
  sessions ex_db5
  = [Session.mk 1 ex_token (u "Algorithms 101") (isoformat ex_t0);
     Session.mk 2 ex_token2 (u "Physics") (isoformat ex_t3)] /\
  home ex_db5
  = (Render (HomePage
               [Session.mk 2 ex_token2 (u "Physics") (isoformat ex_t3);
                Session.mk 1 ex_token (u "Algorithms 101") (isoformat ex_t0)]),
     ex_db5).
Proof.
  assert (reachable ex_db5) as R
    by (apply reachable_step, reachable_step, reachable_step, reachable_step,
          reachable_step, reachable_init).
  split; [exact R|]. split; [reflexivity|].
  exact (proj2 home_lists_sessions_latest_first ex_db5 R).
Defined.

(** ** Listing the attendance of a session *)

(** C8: the attendance query returns the rows of the given session, all of
    them and no other, ordered by decreasing [marked_at]; as the timestamps
    are written by [isoformat], the most recently marked row comes first.
    The session page shows that list for the session the token names. *)
Theorem attendance_of_session_latest_first (sid : Z) (db : DB) :
  Permutation
    (select_attendance sid db)
    (map attendance_row
         (filter (fun a => Attendance.session_id a =? sid) (attendance db))) /\
  StronglySorted
    (fun a b => str_leb (AttendanceRow.marked_at b) (AttendanceRow.marked_at a) = true)
    (select_attendance sid db) /\
  StronglySorted marked_no_earlier (select_attendance sid db) /\
  (forall host_url tok,
      session_detail host_url tok db =
      match select_session_by_token tok db with
      | Some session =>
          (Render (SessionPage session
                               (select_attendance (Session.id session) db)
                               host_url tok), db)
      | None => (Text "Session not found" 404, db)
      end).
Proof.
  assert (StronglySorted
            (fun a b => str_leb (AttendanceRow.marked_at b)
                                (AttendanceRow.marked_at a) = true)
            (select_attendance sid db)) as Hsorted.
  { unfold select_attendance.
    apply (order_by_desc_sorted
             (fun a b => str_leb (AttendanceRow.marked_at b)
                                 (AttendanceRow.marked_at a))).
    - intros a b. apply str_leb_total.
    - intros a b c H1 H2. exact (str_leb_trans _ _ _ H2 H1). }
  split; [apply order_by_desc_perm|]. split; [exact Hsorted|]. split.
  - eapply StronglySorted_weaken; [|exact Hsorted].
    intros r1 r2 H t1 t2 R1 R2 E1 E2.
    cbv beta in H. rewrite E1, E2 in H. rewrite <- (isoformat_order t2 t1 R2 R1). exact H.
  - intros host_url tok. unfold session_detail.
    destruct (select_session_by_token tok db); reflexivity.
Qed.

Lemma attendance_of_session_latest_first_witness :
  select_attendance 1 ex_db3
  = [AttendanceRow.mk (u "S2") (u "Grace") (isoformat ex_t2);
     AttendanceRow.mk (u "S1") (u "Ada") (isoformat ex_t1)] /\
  datetime_leb ex_t1 ex_t2 = true.
Proof.
  split; [reflexivity|].
  pose proof (proj1 (proj2 (proj2 (attendance_of_session_latest_first 1 ex_db3))))
    as H.
  change (select_attendance 1 ex_db3)
    with [AttendanceRow.mk (u "S2") (u "Grace") (isoformat ex_t2);
          AttendanceRow.mk (u "S1") (u "Ada") (isoformat ex_t1)] in H.
  apply StronglySorted_inv in H as [_ H]. apply Forall_inv in H.
  apply (H ex_t2 ex_t1).
  - unfold datetime_in_range, ex_t2; simpl; lia.
  - unfold datetime_in_range, ex_t1; simpl; lia.
  - reflexivity.
  - reflexivity.
Defined.

(** ** Marking attendance *)



(** A body that is absent or does not parse stands for the empty payload. *)
Lemma mark_fields_none : mark_fields None = inr ([], [], []).
Proof. reflexivity. Qed.

Lemma mark_attendance_fields (body : option json) (now : datetime) (db : DB)
      (tok student name : pystr) :
  mark_fields body = inr (tok, student, name) ->
  tok <> [] -> student <> [] -> name <> [] ->
  encodable tok = true -> encodable student = true -> encodable name = true ->
  mark_attendance body now db =
  match select_session_by_token tok db with
  | None => (Json false "Invalid session token" 404, db)
  | Some session =>
      match insert_attendance (Session.id session) student name
                              (isoformat now) db with
      | inr db' => (Json true "Attendance marked successfully" 200, db')
      | inl _ => (Json false "Attendance already marked for this student" 409, db)
      end
  end.
Proof.
  intros H Ht Hs Hn Et Es En. unfold mark_attendance. rewrite H.
  rewrite (proj2 (str_truthy_true tok) Ht), (proj2 (str_truthy_true student) Hs),
    (proj2 (str_truthy_true name) Hn).
  cbn [negb orb].
  rewrite (bind_parameters_ok [tok]) by (cbn [forallb]; rewrite Et; reflexivity).
  destruct (select_session_by_token tok db); [|reflexivity].
  cbv zeta.
  rewrite (bind_parameters_ok [student; name; isoformat now])
    by (cbn [forallb]; rewrite Es, En, encodable_isoformat; reflexivity).
  unfold bind.
  destruct (insert_attendance _ _ _ _ _) as [e|db'] eqn:E; [|reflexivity].
  apply insert_attendance_error in E. subst. reflexivity.
Qed.

(** The SELECT binds the token only. *)
Lemma mark_attendance_lookup (body : option json) (now : datetime) (db : DB)
      (tok student name : pystr) :
  mark_fields body = inr (tok, student, name) ->
  tok <> [] -> student <> [] -> name <> [] ->
  encodable tok = true ->
  select_session_by_token tok db = None ->
  mark_attendance body now db = (Json false "Invalid session token" 404, db).
Proof.
  intros H Ht Hs Hn Et Hsel. unfold mark_attendance. rewrite H.
  rewrite (proj2 (str_truthy_true tok) Ht), (proj2 (str_truthy_true student) Hs),
    (proj2 (str_truthy_true name) Hn).
  cbn [negb orb].
  rewrite (bind_parameters_ok [tok]) by (cbn [forallb]; rewrite Et; reflexivity).
  rewrite Hsel. reflexivity.
Qed.


Lemma attendance_count_insert (sid : Z) (student name marked : pystr) (db db' : DB) :
  insert_attendance sid student name marked db = inr db' ->
  attendance_count sid db' = S (attendance_count sid db).
Proof.
  intros H. apply insert_attendance_ok in H as [_ ->].
  unfold attendance_count. simpl.
  rewrite filter_app, length_app. simpl. rewrite Z.eqb_refl. simpl. lia.
Qed.

(** *** Tokens name one session *)

Lemma find_unique_token (l : list Session.t) (s : Session.t) :
  NoDup (map Session.token l) -> In s l ->
  find (fun x => str_eqb (Session.token x) (Session.token s)) l = Some s.
Proof.
  induction l as [|x l IH]; simpl; intros Hnd Hin; [contradiction|].
  inversion Hnd as [|? ? Hx Hl]; subst.
  destruct Hin as [->|Hin].
  - rewrite str_eqb_refl. reflexivity.
  - destruct (str_eqb (Session.token x) (Session.token s)) eqn:E.
    + apply str_eqb_eq in E. exfalso. apply Hx. rewrite E.
      apply in_map. exact Hin.
    + apply IH; assumption.
Qed.

Lemma tokens_unique_inv (db : DB) : reachable db -> tokens_unique db.
Proof.
  induction 1 as [|req db _ IH]; [constructor|].
  unfold tokens_unique in *.
  destruct (handle_cases req db)
    as [H|[(tok & cls & created & H)|(sid & st & nm & mk & H)]].
  - rewrite H. exact IH.
  - apply insert_session_ok in H as [Hfresh ->]. simpl.
    rewrite map_app. simpl.
    apply NoDup_rev in IH. rewrite <- rev_involutive.
    apply NoDup_rev. rewrite rev_app_distr. simpl.
    constructor; [|exact IH]. rewrite <- in_rev. exact Hfresh.
  - apply insert_attendance_ok in H as [_ ->]. exact IH.
Qed.

(** In a reachable state the session a token is looked up to is the stored
    session with that token. *)
Lemma select_stored_session (db : DB) (session : Session.t) :
  reachable db -> In session (sessions db) ->
  select_session_by_token (Session.token session) db = Some session.
Proof.
  intros R Hin. apply find_unique_token; [|exact Hin].
  exact (tokens_unique_inv db R).
Qed.

Lemma select_unknown_token (tok : pystr) (db : DB) :
  ~ In tok (map Session.token (sessions db)) ->
  select_session_by_token tok db = None.
Proof.
  intros Hnot. unfold select_session_by_token.
  destruct (find _ (sessions db)) as [s|] eqn:E; [|reflexivity].
  apply find_some in E as [Hin Heq]. apply str_eqb_eq in Heq.
  exfalso. apply Hnot. rewrite <- Heq. apply in_map. exact Hin.
Qed.

(** The claim that a new student_id is recorded at the first request fails
    on a student_id UTF-8 cannot encode, which a JSON body can carry: the
    token names a stored session, the fields are not blank and the student
    has no row, yet binding the student_id raises, the exception is not the
    one the handler catches, and the answer is 500 with nothing written. *)
Lemma mark_attendance_unencodable_student :
  In (Session.mk 1 ex_token (u "Algorithms 101") (isoformat ex_t0))
     (sessions ex_db1) /\
  strip ex_surrogate <> [] /\
  ~ In (1, strip ex_surrogate) (map attendance_key (attendance ex_db1)) /\
  mark_attendance (mark_body ex_token ex_surrogate (u "Ada")) ex_t1 ex_db1
  = (ServerError UnicodeEncodeError, ex_db1) /\
  attendance_count 1 ex_db1 = 0%nat.
Proof.
  split; [left; reflexivity|]. split; [discriminate|].
  split; [simpl; tauto|]. split; reflexivity.
Qed.

(** C1 (amended): in a reachable state, with the token of a stored session,
    fields that are not blank and that UTF-8 can encode, and a student_id the
    session has no row for, marking attendance succeeds and adds one row to
    that session; a second request with the same token and student_id is
    answered 409 and leaves the database, hence the count of the session, as
    it was. *)
Theorem mark_attendance_exactly_once
        (body1 body2 : option json) (now1 now2 : datetime) (db : DB)
        (tok student name1 name2 : pystr) (session : Session.t) :
  reachable db ->
  In session (sessions db) -> Session.token session = tok ->
  mark_fields body1 = inr (tok, student, name1) ->
  mark_fields body2 = inr (tok, student, name2) ->
  tok <> [] -> student <> [] -> name1 <> [] -> name2 <> [] ->
  encodable tok = true -> encodable student = true ->
  encodable name1 = true -> encodable name2 = true ->
  ~ In (Session.id session, student) (map attendance_key (attendance db)) ->
  exists db1,
    mark_attendance body1 now1 db
    = (Json true "Attendance marked successfully" 200, db1) /\
    attendance_count (Session.id session) db1
    = S (attendance_count (Session.id session) db) /\
    mark_attendance body2 now2 db1
    = (Json false "Attendance already marked for this student" 409, db1) /\
    attendance_count (Session.id session) (snd (mark_attendance body2 now2 db1))
    = attendance_count (Session.id session) db1.
Proof.
  intros R Hin Htok H1 H2 Ht Hs Hn1 Hn2 Et Es En1 En2 Hnew.
  pose proof (select_stored_session db session R Hin) as Hsel.
  rewrite Htok in Hsel.
  destruct (insert_attendance_fresh (Session.id session) student name1
                                    (isoformat now1) db Hnew)
    as [db1 Hins].
  exists db1.
  rewrite (mark_attendance_fields body1 now1 db _ _ _ H1 Ht Hs Hn1 Et Es En1),
    Hsel, Hins.
  split; [reflexivity|].
  split; [exact (attendance_count_insert _ _ _ _ _ _ Hins)|].
  assert (mark_attendance body2 now2 db1
          = (Json false "Attendance already marked for this student" 409, db1)) as E.
  { rewrite (mark_attendance_fields body2 now2 db1 _ _ _ H2 Ht Hs Hn2 Et Es En2).
    apply insert_attendance_ok in Hins as [_ ->].
    unfold select_session_by_token in *. simpl. rewrite Hsel.
    rewrite insert_attendance_taken; [reflexivity|].
    simpl. rewrite map_app, in_app_iff. right. left. reflexivity. }
  rewrite E. split; reflexivity.
Qed.

Lemma mark_attendance_exactly_once_witness :
  exists db1,
    mark_attendance (mark_body ex_token2 (u "S1") (u "Ada")) ex_t3 ex_db4
    = (Json true "Attendance marked successfully" 200, db1) /\
    attendance_count 2 db1 = S (attendance_count 2 ex_db4) /\
    mark_attendance (mark_body ex_token2 (u "S1") (u "Ada Lovelace")) ex_t3 db1
    = (Json false "Attendance already marked for this student" 409, db1) /\
    attendance_count 2
      (snd (mark_attendance (mark_body ex_token2 (u "S1") (u "Ada Lovelace"))
                            ex_t3 db1))
    = attendance_count 2 db1.
Proof.
  apply (mark_attendance_exactly_once
           (mark_body ex_token2 (u "S1") (u "Ada"))
           (mark_body ex_token2 (u "S1") (u "Ada Lovelace"))
           ex_t3 ex_t3 ex_db4
           ex_token2 (u "S1") (u "Ada") (u "Ada Lovelace")
           (Session.mk 2 ex_token2 (u "Physics") (isoformat ex_t3))).
  - apply reachable_step, reachable_step, reachable_step, reachable_step,
      reachable_init.
  - right. left. reflexivity.
  - reflexivity.
  - reflexivity.
  - reflexivity.
  - discriminate.
  - discriminate.
  - discriminate.
  - discriminate.
  - reflexivity.
  - reflexivity.
  - reflexivity.
  - reflexivity.
  - simpl. intros [H|[H|[]]]; discriminate H.
Defined.

(** The claim that an unknown token is answered 404 whatever the other
    fields are fails on a blank student_id: the handler validates the fields
    before it looks the token up, and answers 400. *)
Lemma mark_attendance_unknown_token_blank_field :
  select_session_by_token (strip (u "nope")) ex_db1 = None /\
  mark_attendance (mark_body (u "nope") (u "  ") (u "Ada"))
                  ex_t1 ex_db1
  = (Json false "token, student_id and student_name are required" 400, ex_db1) /\
  status_of (fst (mark_attendance (mark_body (u "nope") (u "  ") (u "Ada"))
                                  ex_t1 ex_db1)) <> 404.
Proof.
  split; [reflexivity|]. split; [reflexivity|]. discriminate.
Qed.

(** C2 (amended): when the three fields are not blank and the token, which
    UTF-8 can encode, is the token of no stored session, the request is
    answered 404 whatever student_id and student_name are, and the database
    is left as it was. *)
Theorem mark_attendance_unknown_token
        (body : option json) (now : datetime) (db : DB) (tok student name : pystr) :
  mark_fields body = inr (tok, student, name) ->
  tok <> [] -> student <> [] -> name <> [] ->
  encodable tok = true ->
  ~ In tok (map Session.token (sessions db)) ->
  mark_attendance body now db = (Json false "Invalid session token" 404, db).
Proof.
  intros H Ht Hs Hn Et Hnot.
  apply (mark_attendance_lookup body now db tok student name); try assumption.
  apply select_unknown_token. exact Hnot.
Qed.

Lemma mark_attendance_unknown_token_witness :
  mark_attendance (mark_body (u "nope") ex_surrogate (u "Ada")) ex_t1 ex_db4
  = (Json false "Invalid session token" 404, ex_db4).
Proof.
  apply (mark_attendance_unknown_token _ _ _ (u "nope") ex_surrogate (u "Ada")).
  - reflexivity.
  - discriminate.
  - discriminate.
  - discriminate.
  - reflexivity.
  - simpl. intros [H|[H|[]]]; discriminate H.
Defined.

Lemma mark_attendance_required
      (body : option json) (now : datetime) (db : DB) (tok student name : pystr) :
  mark_fields body = inr (tok, student, name) ->
  tok = [] \/ student = [] \/ name = [] ->
  mark_attendance body now db
  = (Json false "token, student_id and student_name are required" 400, db).
Proof.
  intros H Hblank. unfold mark_attendance. rewrite H.
  destruct Hblank as [->|[->| ->]]; simpl.
  - reflexivity.
  - rewrite orb_true_r. reflexivity.
  - rewrite orb_true_r. reflexivity.
Qed.






(** ** Creating sessions *)

(** C4: a class name that is empty or made of whitespace only, or a form
    without the field, creates nothing: the request redirects to the home
    page and the database is left as it was. *)
Theorem create_session_blank_name
        (form_class_name : option pystr) (tok : pystr) (now : datetime) (db : DB) :
  forallb is_space (form_get form_class_name []) = true ->
  create_session form_class_name tok now db = (Redirect HomeEndpoint, db) /\
  sessions (snd (create_session form_class_name tok now db)) = sessions db.
Proof.
  intros H. apply strip_nil in H.
  unfold create_session. rewrite H. simpl. split; reflexivity.
Qed.

Lemma create_session_blank_name_witness :
  create_session (Some (u "   ")) ex_token ex_t3 ex_db2
  = (Redirect HomeEndpoint, ex_db2) /\
  sessions (snd (create_session (Some (u "   ")) ex_token
                                ex_t3 ex_db2))
  = sessions ex_db2.
Proof.
  apply (create_session_blank_name (Some (u "   "))). reflexivity.
Defined.

(** The claim that every creation with a non-blank name yields a token no
    stored session has fails when [secrets.token_urlsafe] returns a token
    that is already stored: the INSERT violates the UNIQUE constraint, the
    exception is not caught, no session is created and the token still names
    the older session. *)
Lemma create_session_token_collision :
  strip (u "Physics") <> [] /\
  In ex_token (map Session.token (sessions ex_db1)) /\
  create_session (Some (u "Physics")) ex_token ex_t3 ex_db1
  = (ServerError IntegrityError, ex_db1) /\
  option_map Session.class_name (select_session_by_token ex_token ex_db1)
  = Some (u "Algorithms 101").
Proof.
  split; [discriminate|]. split; [left; reflexivity|].
  split; reflexivity.
Qed.

Lemma find_app_last {A} (f : A -> bool) (l : list A) (x : A) :
  existsb f l = false -> f x = true -> find f (l ++ [x]) = Some x.
Proof.
  induction l as [|y l IH]; simpl; intros H Hx.
  - rewrite Hx. reflexivity.
  - apply orb_false_iff in H as [Hy H]. rewrite Hy. auto.
Qed.

(** C5 (amended): for a class name that is not blank and a generated token no
    stored session has, the request stores a new session with that token,
    the trimmed class name and the time of the request, and redirects to its
    page; looking the token up afterwards returns that session. *)
Theorem create_session_then_lookup
        (form_class_name : option pystr) (tok : pystr) (now : datetime) (db : DB) :
  strip (form_get form_class_name []) <> [] ->
  ~ In tok (map Session.token (sessions db)) ->
  exists session db',
    create_session form_class_name tok now db
    = (Redirect (SessionDetailEndpoint tok), db') /\
    sessions db' = sessions db ++ [session] /\
    Session.token session = tok /\
    Session.class_name session = strip (form_get form_class_name []) /\
    Session.created_at session = isoformat now /\
    ~ In session (sessions db) /\
    select_session_by_token tok db' = Some session /\
    (forall host_url,
        session_detail host_url tok db'
        = (Render (SessionPage session
                               (select_attendance (Session.id session) db')
                               host_url tok), db')).
Proof.
  intros Hname Hfresh. unfold create_session.
  destruct (strip (form_get form_class_name [])) as [|c cls] eqn:Ecls;
    [congruence|]. simpl.
  pose proof Hfresh as Hex. rewrite <- existsb_token in Hex.
  apply not_true_is_false in Hex.
  unfold insert_session. rewrite Hex. unfold ret.
  eexists; eexists. split; [reflexivity|]. simpl.
  split; [reflexivity|]. split; [reflexivity|]. split; [reflexivity|].
  split; [reflexivity|].
  assert (select_session_by_token tok
            (mkDB (sessions db ++
                     [Session.mk (next_rowid (sessions_seq db)
                                             (map Session.id (sessions db)))
                                 tok (c :: cls) (isoformat now)])
                  (attendance db)
                  (next_rowid (sessions_seq db) (map Session.id (sessions db)))
                  (attendance_seq db))
          = Some (Session.mk (next_rowid (sessions_seq db)
                                         (map Session.id (sessions db)))
                             tok (c :: cls) (isoformat now))) as Hsel.
  { unfold select_session_by_token. simpl.
    apply find_app_last; [exact Hex|]. simpl. apply str_eqb_refl. }
  split; [|split].
  - intros Hin. apply Hfresh.
    apply (in_map Session.token) in Hin. exact Hin.
  - exact Hsel.
  - intros host_url. unfold session_detail. rewrite Hsel. reflexivity.
Qed.

Lemma create_session_then_lookup_witness :
  exists session db',
    create_session (Some (u " Physics ")) (u "YmFyZm9vNDMyMQ")
                   ex_t3 ex_db2
    = (Redirect (SessionDetailEndpoint (u "YmFyZm9vNDMyMQ")), db') /\
    sessions db' = sessions ex_db2 ++ [session] /\
    Session.token session = u "YmFyZm9vNDMyMQ" /\
    Session.class_name session = strip (form_get (Some (u " Physics ")) []) /\
    Session.created_at session = isoformat ex_t3 /\
    ~ In session (sessions ex_db2) /\
    select_session_by_token (u "YmFyZm9vNDMyMQ") db' = Some session /\
    (forall host_url,
        session_detail host_url (u "YmFyZm9vNDMyMQ") db'
        = (Render (SessionPage session
                               (select_attendance (Session.id session) db')
                               host_url (u "YmFyZm9vNDMyMQ")), db')).
Proof.
  apply (create_session_then_lookup (Some (u " Physics ")) (u "YmFyZm9vNDMyMQ")
                                    ex_t3 ex_db2).
  - discriminate.
  - simpl. intros [H|[]]. discriminate H.
Defined.

(** * Further properties of the handlers *)

(** ** Trimming *)

Lemma lstrip_split (s : pystr) :
  exists pre, s = pre ++ lstrip s /\ forallb is_space pre = true.
Proof.
  induction s as [|c s [pre [E Hpre]]]; simpl.
  - exists []. split; reflexivity.
  - destruct (is_space c) eqn:Ec.
    + exists (c :: pre). simpl. rewrite Ec, Hpre. split; [congruence|reflexivity].
    + exists []. split; reflexivity.
Qed.

Lemma lstrip_head (s : pystr) (c : N) (t : pystr) :
  lstrip s = c :: t -> is_space c = false.
Proof.
  induction s as [|d s IH]; simpl; [discriminate|].
  destruct (is_space d) eqn:Ed; [exact IH|].
  intros H; inversion H; subst. exact Ed.
Qed.

(** What [strip] removes is whitespace, and what it leaves has none at
    either end. *)
Lemma strip_spec (s : pystr) :
  (exists pre post,
      s = pre ++ strip s ++ post /\
      forallb is_space pre = true /\ forallb is_space post = true) /\
  no_outer_space (strip s).
Proof.
  unfold strip, rstrip.
  destruct (lstrip_split s) as [pre [Es Hpre]].
  destruct (lstrip_split (rev (lstrip s))) as [tl [Er Htl]].
  assert (lstrip s = rev (lstrip (rev (lstrip s))) ++ rev tl) as El.
  { rewrite <- rev_app_distr, <- Er, rev_involutive. reflexivity. }
  split.
  - exists pre, (rev tl). rewrite <- El. split; [exact Es|]. split; [exact Hpre|].
    rewrite forallb_forall in *. intros x Hx. apply Htl, in_rev. exact Hx.
  - split.
    + intros c t E. rewrite E in El. simpl in El.
      exact (lstrip_head _ _ _ El).
    + intros c t E. apply (f_equal (@rev N)) in E.
      rewrite rev_involutive, rev_app_distr in E. simpl in E.
      exact (lstrip_head _ _ _ E).
Qed.

Lemma strip_well_trimmed (s : pystr) : strip s <> [] -> well_trimmed (strip s).
Proof. intros H. split; [exact H | apply strip_spec]. Qed.

Lemma get_field_stripped (payload : list (pystr * json)) (k : string) (v : pystr) :
  get_field payload k = inr v -> exists x, v = strip x.
Proof.
  unfold get_field. destruct (py_or _ _); try discriminate.
  intros H; inversion H. eauto.
Qed.

Lemma mark_fields_stripped (body : option json) (tok student name : pystr) :
  mark_fields body = inr (tok, student, name) ->
  exists x y z, tok = strip x /\ student = strip y /\ name = strip z.
Proof.
  unfold mark_fields, bind, ret.
  destruct (get_payload body) as [e|p]; [discriminate|].
  destruct (get_field p "token") as [e|t] eqn:Et; [discriminate|].
  destruct (get_field p "student_id") as [e|st] eqn:Es; [discriminate|].
  destruct (get_field p "student_name") as [e|nm] eqn:En; [discriminate|].
  intros H; inversion H; subst.
  apply get_field_stripped in Et as [x ->].
  apply get_field_stripped in Es as [y ->].
  apply get_field_stripped in En as [z ->].
  exists x, y, z. repeat split.
Qed.

(** ** What a request writes *)

(** The row a request inserts, with what the handler checked before. *)
Lemma handle_writes (req : Request) (db : DB) :
  snd (handle req db) = db
  \/ (exists f tok now,
        req = PostCreateSession f tok now /\
        strip (form_get f []) <> [] /\
        fst (handle req db) = Redirect (SessionDetailEndpoint tok) /\
        insert_session tok (strip (form_get f [])) (isoformat now) db
        = inr (snd (handle req db)))
  \/ (exists body now tok student name session,
        req = PostMarkAttendance body now /\
        mark_fields body = inr (tok, student, name) /\
        tok <> [] /\ student <> [] /\ name <> [] /\
        select_session_by_token tok db = Some session /\
        fst (handle req db) = Json true "Attendance marked successfully" 200 /\
        insert_attendance (Session.id session) student name (isoformat now) db
        = inr (snd (handle req db))).
Proof.
  destruct req as [|f tok now|h tok|h tok|tok|body now]; simpl.
  - left; reflexivity.
  - unfold create_session.
    destruct (strip (form_get f [])) as [|c cls] eqn:Ec; [left; reflexivity|].
    simpl.
    destruct (insert_session _ _ _ _) as [e|db'] eqn:E; [left; reflexivity|].
    right; left. exists f, tok, now. simpl. rewrite Ec.
    repeat split; [discriminate | exact E].
  - unfold session_detail.
    destruct (select_session_by_token _ _); left; reflexivity.
  - left; reflexivity.
  - unfold scan_page.
    destruct (select_session_by_token _ _); left; reflexivity.
  - destruct (mark_attendance_inv body now db)
      as [[e ->]|[(msg & st & ->)
                 |(tok & student & name & s & db' & Hf & (Ht & Hs & Hn) & _
                   & Hsel & E & ->)]].
    + left; reflexivity.
    + left; reflexivity.
    + right; right. exists body, now, tok, student, name, s. simpl.
      repeat split; assumption.
Qed.

(** An invariant of the empty database that both INSERT statements keep, as
    the handlers run them, holds in every reachable state. *)
Lemma reachable_invariant (P : DB -> Prop) :
  P empty_db ->
  (forall f tok now db db',
      P db -> strip (form_get f []) <> [] ->
      insert_session tok (strip (form_get f [])) (isoformat now) db = inr db' ->
      P db') ->
  (forall body now tok student name session db db',
      P db -> mark_fields body = inr (tok, student, name) ->
      tok <> [] -> student <> [] -> name <> [] ->
      select_session_by_token tok db = Some session ->
      insert_attendance (Session.id session) student name (isoformat now) db
      = inr db' ->
      P db') ->
  forall db, reachable db -> P db.
Proof.
  intros H0 Hs Ha. induction 1 as [|req db _ IH]; [exact H0|].
  destruct (handle_writes req db)
    as [E|[(f & tok & now & _ & Hn & _ & E)
          |(body & now & tok & st & nm & s & _ & Hf & Ht & Hst & Hnm & Hsel & _ & E)]].
  - rewrite E. exact IH.
  - exact (Hs _ _ _ _ _ IH Hn E).
  - exact (Ha _ _ _ _ _ _ _ _ IH Hf Ht Hst Hnm Hsel E).
Qed.

Lemma ex_db3_reachable : reachable ex_db3.
Proof. apply reachable_step, reachable_step, reachable_step, reachable_init. Qed.

(** ** Invariants of the reachable states *)

(** X1: whatever the requests were, every class name, student id and student
    name in the database is non-empty and has no whitespace at either end. *)
Theorem reachable_values_trimmed (db : DB) :
  reachable db -> stored_values_trimmed db.
Proof.
  apply reachable_invariant.
  - split; constructor.
  - intros f tok now d d' [Hs Ha] Hn E.
    apply insert_session_ok in E as [_ ->]. split; simpl; [|exact Ha].
    apply Forall_app. split; [exact Hs|].
    constructor; [|constructor]. simpl. apply strip_well_trimmed, Hn.
  - intros body now tok st nm s d d' [Hs Ha] Hf _ Hst Hnm _ E.
    apply insert_attendance_ok in E as [_ ->]. split; simpl; [exact Hs|].
    apply Forall_app. split; [exact Ha|].
    constructor; [|constructor]. simpl.
    apply mark_fields_stripped in Hf as (x & y & z & _ & -> & ->).
    split; apply strip_well_trimmed; assumption.
Qed.

Lemma reachable_values_trimmed_witness : stored_values_trimmed ex_db3.
Proof. exact (reachable_values_trimmed ex_db3 ex_db3_reachable). Defined.

(** X2: in every reachable state no two sessions share a token, and looking
    up the token of a stored session returns that very session. *)
Theorem reachable_tokens_unique (db : DB) :
  reachable db ->
  tokens_unique db /\
  (forall s, In s (sessions db) ->
             select_session_by_token (Session.token s) db = Some s).
Proof.
  intros R. pose proof (tokens_unique_inv db R) as Hu.
  split; [exact Hu|].
  intros s Hin. apply find_unique_token; assumption.
Qed.

Lemma ex_db5_reachable : reachable ex_db5.
Proof.
  apply reachable_step, reachable_step, reachable_step, reachable_step,
    reachable_step, reachable_init.
Qed.

Lemma reachable_tokens_unique_witness :
  map Session.token (sessions ex_db5) = [ex_token; ex_token2] /\
  tokens_unique ex_db5 /\
  select_session_by_token ex_token2 ex_db5
  = Some (Session.mk 2 ex_token2 (u "Physics") (isoformat ex_t3)) /\
  select_session_by_token ex_token ex_db5
  = Some (Session.mk 1 ex_token (u "Algorithms 101") (isoformat ex_t0)).
Proof.
  destruct (reachable_tokens_unique ex_db5 ex_db5_reachable) as [Hu Hsel].
  split; [reflexivity|]. split; [exact Hu|]. split.
  - apply (Hsel (Session.mk 2 ex_token2 (u "Physics") (isoformat ex_t3))).
    right. left. reflexivity.
  - apply (Hsel (Session.mk 1 ex_token (u "Algorithms 101") (isoformat ex_t0))).
    left. reflexivity.
Defined.

Lemma next_rowid_seq (seq : Z) (ids : list Z) : seq < next_rowid seq ids.
Proof. unfold next_rowid. lia. Qed.

Lemma rowids_ok_append (seq : Z) (ids : list Z) :
  0 <= seq -> rowids_ok seq ids ->
  rowids_ok (next_rowid seq ids) (ids ++ [next_rowid seq ids]).
Proof.
  intros Hseq [Hs Hb]. pose proof (next_rowid_seq seq ids) as Hn.
  pose proof (next_rowid_above seq ids) as Habove.
  revert Hs Hb Hn Habove. generalize (next_rowid seq ids) as r.
  induction ids as [|i ids IH]; simpl; intros r Hs Hb Hn Habove.
  - split; repeat constructor; lia.
  - inversion Hs; subst. inversion Hb; subst. inversion Habove; subst.
    destruct (IH r) as [Hs' Hb']; try assumption.
    split.
    + constructor; [exact Hs'|].
      apply Forall_app. split; [assumption|]. repeat constructor. assumption.
    + constructor; [lia | exact Hb'].
Qed.

(** X3: in every reachable state the ids of each table are positive, grow
    strictly with the order of insertion, hence are pairwise distinct, and
    none is above the AUTOINCREMENT counter of its table. *)
Theorem reachable_primary_keys (db : DB) :
  reachable db ->
  primary_keys_ok db /\
  NoDup (map Session.id (sessions db)) /\
  NoDup (map Attendance.id (attendance db)).
Proof.
  intros R.
  assert (primary_keys_ok db /\ 0 <= sessions_seq db /\ 0 <= attendance_seq db)
    as [H _].
  { revert db R. apply reachable_invariant.
    - repeat split; simpl; try constructor; lia.
    - intros f tok now d d' [[Hs Ha] [H1 H2]] _ E.
      apply insert_session_ok in E as [_ ->]. unfold primary_keys_ok. simpl.
      rewrite map_app. simpl.
      pose proof (next_rowid_seq (sessions_seq d) (map Session.id (sessions d))).
      repeat split; try apply rowids_ok_append; try apply Ha; try assumption; lia.
    - intros body now tok st nm s d d' [[Hs Ha] [H1 H2]] _ _ _ _ _ E.
      apply insert_attendance_ok in E as [_ ->]. unfold primary_keys_ok. simpl.
      rewrite map_app. simpl.
      pose proof (next_rowid_seq (attendance_seq d) (map Attendance.id (attendance d))).
      repeat split; try apply rowids_ok_append; try apply Hs; try assumption; lia. }
  split; [exact H|].
  assert (forall l, StronglySorted Z.lt l -> NoDup l) as Hnd.
  { induction 1 as [|x l _ IH Hx]; constructor; [|exact IH].
    intros Hin. rewrite Forall_forall in Hx. specialize (Hx x Hin). lia. }
  destruct H as [[Hs _] [Ha _]]. split; apply Hnd; assumption.
Qed.

Lemma reachable_primary_keys_witness :
  primary_keys_ok ex_db3 /\
  NoDup (map Session.id (sessions ex_db3)) /\
  NoDup (map Attendance.id (attendance ex_db3)).
Proof. exact (reachable_primary_keys ex_db3 ex_db3_reachable). Defined.

Lemma references_valid_inv (db : DB) : reachable db -> references_valid db.
Proof.
  apply reachable_invariant; unfold references_valid.
  - constructor.
  - intros f tok now d d' Hd _ E.
    apply insert_session_ok in E as [_ ->]. simpl.
    eapply Forall_impl; [|exact Hd]. intros a Ha.
    rewrite map_app, in_app_iff. left. exact Ha.
  - intros body now tok st nm s d d' Hd _ _ _ _ Hsel E.
    apply insert_attendance_ok in E as [_ ->]. simpl.
    apply Forall_app. split; [exact Hd|].
    constructor; [|constructor]. simpl.
    apply in_map. unfold select_session_by_token in Hsel.
    apply find_some in Hsel. tauto.
Qed.

(** X4: the application never turns foreign keys on, yet in every reachable
    state each attendance row carries the id of a stored session: an id that
    no session has counts no attendance. *)
Theorem reachable_references_valid (db : DB) :
  reachable db ->
  references_valid db /\
  (forall a, In a (attendance db) ->
             exists s, In s (sessions db) /\ Session.id s = Attendance.session_id a) /\
  (forall sid, ~ In sid (map Session.id (sessions db)) ->
               attendance_count sid db = 0%nat).
Proof.
  intros R. pose proof (references_valid_inv db R) as H.
  split; [exact H|]. unfold references_valid in H.
  rewrite Forall_forall in H. split.
  - intros a Ha. specialize (H a Ha).
    apply in_map_iff in H as [s [Hs Hin]]. eauto.
  - intros sid Hnot. unfold attendance_count.
    induction (attendance db) as [|a l IH]; simpl; [reflexivity|].
    destruct (Z.eqb_spec (Attendance.session_id a) sid) as [E|_].
    + exfalso. apply Hnot. rewrite <- E. apply H. left. reflexivity.
    + apply IH. intros x Hx. apply H. right. exact Hx.
Qed.

Lemma reachable_references_valid_witness :
  references_valid ex_db3 /\
  (forall a, In a (attendance ex_db3) ->
             exists s, In s (sessions ex_db3)
                       /\ Session.id s = Attendance.session_id a) /\
  (forall sid, ~ In sid (map Session.id (sessions ex_db3)) ->
               attendance_count sid ex_db3 = 0%nat).
Proof. exact (reachable_references_valid ex_db3 ex_db3_reachable). Defined.

(** ** Answers and effects *)

Lemma insert_session_grows (tok cls created : pystr) (db db' : DB) :
  insert_session tok cls created db = inr db' ->
  db' <> db /\
  List.length (sessions db') = S (List.length (sessions db)) /\
  attendance db' = attendance db.
Proof.
  intros E. apply insert_session_ok in E as [_ ->]. simpl.
  rewrite length_app. simpl. repeat split; try lia.
  intros H. apply (f_equal (fun d => List.length (sessions d))) in H.
  simpl in H. rewrite length_app in H. simpl in H. lia.
Qed.

Lemma insert_attendance_grows (sid : Z) (student name marked : pystr) (db db' : DB) :
  insert_attendance sid student name marked db = inr db' ->
  db' <> db /\
  List.length (attendance db') = S (List.length (attendance db)) /\
  sessions db' = sessions db.
Proof.
  intros E. apply insert_attendance_ok in E as [_ ->]. simpl.
  rewrite length_app. simpl. repeat split; try lia.
  intros H. apply (f_equal (fun d => List.length (attendance d))) in H.
  simpl in H. rewrite length_app in H. simpl in H. lia.
Qed.

(** X5: a request changes the database exactly when its answer is the
    redirect to the new session or [ok: true], and then it adds one row to
    one table; every other answer, of a page, of a redirect to the home page
    or of an error, leaves the database as it was. *)
Theorem database_changes_iff_write_reported (req : Request) (db : DB) :
  (reports_write (fst (handle req db)) = false -> snd (handle req db) = db) /\
  (reports_write (fst (handle req db)) = true ->
   snd (handle req db) <> db /\
   (List.length (sessions (snd (handle req db)))
    + List.length (attendance (snd (handle req db)))
    = S (List.length (sessions db) + List.length (attendance db)))%nat).
Proof.
  destruct req as [|f tok now|h tok|h tok|tok|body now]; simpl.
  - split; [reflexivity | discriminate].
  - unfold create_session.
    destruct (negb _); simpl; [split; [reflexivity | discriminate]|].
    destruct (insert_session _ _ _ _) as [e|db'] eqn:E; simpl;
      [split; [reflexivity | discriminate]|].
    split; [discriminate|]. intros _.
    apply insert_session_grows in E as (Hne & Hl & Ha).
    split; [exact Hne|]. rewrite Hl, Ha. reflexivity.
  - unfold session_detail.
    destruct (select_session_by_token _ _); simpl;
      (split; [reflexivity | discriminate]).
  - split; [reflexivity | discriminate].
  - unfold scan_page.
    destruct (select_session_by_token _ _); simpl;
      (split; [reflexivity | discriminate]).
  - destruct (mark_attendance_inv body now db)
      as [[e ->]|[(msg & st & ->)
                 |(tok & student & name & s & db' & _ & _ & _ & _ & E & ->)]];
      simpl.
    + split; [reflexivity | discriminate].
    + split; [reflexivity | discriminate].
    + split; [discriminate|]. intros _.
      apply insert_attendance_grows in E as (Hne & Hl & Hs).
      split; [exact Hne|]. rewrite Hl, Hs. lia.
Qed.

Lemma database_changes_iff_write_reported_witness :
  snd (handle ex_mark ex_db2) = ex_db2 /\
  snd (handle ex_mark_late ex_db2) <> ex_db2.
Proof.
  split.
  - apply (proj1 (database_changes_iff_write_reported ex_mark ex_db2)).
    reflexivity.
  - apply (proj2 (database_changes_iff_write_reported ex_mark_late ex_db2)).
    reflexivity.
Defined.

(** ** Bodies the handler cannot read *)






(** X7: a body that is false as a Python value ([null], [false], [0], [0.0],
    the empty string, array or object) is read as the empty payload and
    answered 400, like a body that is absent. *)
Theorem mark_attendance_false_body (v : json) (now : datetime) (db : DB) :
  truthy v = false ->
  mark_attendance (Some v) now db
  = (Json false "token, student_id and student_name are required" 400, db).
Proof.
  intros H.
  apply (mark_attendance_required (Some v) now db [] [] []);
    [|left; reflexivity].
  unfold mark_fields, get_payload, py_or. rewrite H. reflexivity.
Qed.

Lemma mark_attendance_false_body_witness :
  mark_attendance (Some (JFloat (S754_zero true))) ex_t1 ex_db1
  = (Json false "token, student_id and student_name are required" 400, ex_db1).
Proof. apply mark_attendance_false_body. reflexivity. Defined.

(** ** Students and sessions do not interfere *)

(** X8: a request is a duplicate only of the same student in the same
    session.  In a reachable state, two requests with the tokens of stored
    sessions and fields that are not blank and that UTF-8 can encode, which
    differ in the session or in the student_id, neither yet recorded, are
    both answered [ok: true] when served one after the other, and both rows
    are stored. *)
Theorem mark_attendance_distinct_students
        (body1 body2 : option json) (now1 now2 : datetime) (db : DB)
        (tok1 student1 name1 tok2 student2 name2 : pystr)
        (session1 session2 : Session.t) :
  reachable db ->
  In session1 (sessions db) -> Session.token session1 = tok1 ->
  In session2 (sessions db) -> Session.token session2 = tok2 ->
  mark_fields body1 = inr (tok1, student1, name1) ->
  mark_fields body2 = inr (tok2, student2, name2) ->
  tok1 <> [] -> student1 <> [] -> name1 <> [] ->
  tok2 <> [] -> student2 <> [] -> name2 <> [] ->
  encodable tok1 = true -> encodable student1 = true -> encodable name1 = true ->
  encodable tok2 = true -> encodable student2 = true -> encodable name2 = true ->
  ~ In (Session.id session1, student1) (map attendance_key (attendance db)) ->
  ~ In (Session.id session2, student2) (map attendance_key (attendance db)) ->
  (Session.id session1, student1) <> (Session.id session2, student2) ->
  exists db1 db2 rowid1 rowid2,
    mark_attendance body1 now1 db
    = (Json true "Attendance marked successfully" 200, db1) /\
    mark_attendance body2 now2 db1
    = (Json true "Attendance marked successfully" 200, db2) /\
    attendance db2
    = attendance db
        ++ [Attendance.mk rowid1 (Session.id session1) student1 name1
                          (isoformat now1);
            Attendance.mk rowid2 (Session.id session2) student2 name2
                          (isoformat now2)].
Proof.
  intros R Hin1 Htok1 Hin2 Htok2 H1 H2 Ht1 Hs1 Hn1 Ht2 Hs2 Hn2
         Et1 Es1 En1 Et2 Es2 En2 Hnew1 Hnew2 Hdiff.
  pose proof (select_stored_session db session1 R Hin1) as Hsel1.
  pose proof (select_stored_session db session2 R Hin2) as Hsel2.
  rewrite Htok1 in Hsel1. rewrite Htok2 in Hsel2.
  destruct (insert_attendance_fresh (Session.id session1) student1 name1
                                    (isoformat now1) db Hnew1) as [db1 Hins1].
  pose proof Hins1 as Hdb1. apply insert_attendance_ok in Hdb1 as [_ Hdb1].
  assert (~ In (Session.id session2, student2)
               (map attendance_key (attendance db1))) as Hnew2'.
  { rewrite Hdb1. simpl. rewrite map_app, in_app_iff. simpl.
    intros [H|[H|[]]]; [contradiction|]. apply Hdiff. exact H. }
  destruct (insert_attendance_fresh (Session.id session2) student2 name2
                                    (isoformat now2) db1 Hnew2') as [db2 Hins2].
  pose proof Hins2 as Hdb2. apply insert_attendance_ok in Hdb2 as [_ Hdb2].
  exists db1, db2. eexists. eexists.
  rewrite (mark_attendance_fields body1 now1 db _ _ _ H1 Ht1 Hs1 Hn1 Et1 Es1 En1),
    Hsel1, Hins1.
  split; [reflexivity|].
  rewrite (mark_attendance_fields body2 now2 db1 _ _ _ H2 Ht2 Hs2 Hn2 Et2 Es2 En2).
  assert (select_session_by_token tok2 db1 = Some session2) as ->
    by (rewrite Hdb1; exact Hsel2).
  rewrite Hins2. split; [reflexivity|].
  rewrite Hdb2. simpl. rewrite Hdb1. simpl.
  rewrite <- app_assoc. reflexivity.
Qed.

Lemma mark_attendance_distinct_students_witness :
  exists db1 db2 rowid1 rowid2,
    mark_attendance (mark_body ex_token2 (u "S1") (u "Ada")) ex_t3 ex_db4
    = (Json true "Attendance marked successfully" 200, db1) /\
    mark_attendance (mark_body ex_token (u "s2") (u "Grace")) ex_t3 db1
    = (Json true "Attendance marked successfully" 200, db2) /\
    attendance db2
    = attendance ex_db4
        ++ [Attendance.mk rowid1 2 (u "S1") (u "Ada") (isoformat ex_t3);
            Attendance.mk rowid2 1 (u "s2") (u "Grace") (isoformat ex_t3)].
Proof.
  apply (mark_attendance_distinct_students
           (mark_body ex_token2 (u "S1") (u "Ada"))
           (mark_body ex_token (u "s2") (u "Grace"))
           ex_t3 ex_t3 ex_db4
           ex_token2 (u "S1") (u "Ada") ex_token (u "s2") (u "Grace")
           (Session.mk 2 ex_token2 (u "Physics") (isoformat ex_t3))
           (Session.mk 1 ex_token (u "Algorithms 101") (isoformat ex_t0)));
    try reflexivity; try discriminate.
  - apply reachable_step, reachable_step, reachable_step, reachable_step,
      reachable_init.
  - right. left. reflexivity.
  - left. reflexivity.
  - simpl. intros [H|[H|[]]]; discriminate H.
  - simpl. intros [H|[H|[]]]; discriminate H.
Defined.

(** ** Runs *)

Lemma find_app_found {A} (f : A -> bool) (l l' : list A) (x : A) :
  find f l = Some x -> find f (l ++ l') = Some x.
Proof.
  induction l as [|y l IH]; simpl; [discriminate|].
  destruct (f y); auto.
Qed.

Lemma run_appends (reqs : list Request) (db : DB) :
  exists new_sessions new_attendance,
    sessions (run reqs db) = sessions db ++ new_sessions /\
    attendance (run reqs db) = attendance db ++ new_attendance.
Proof.
  revert db; induction reqs as [|req reqs IH]; intros db; simpl.
  - exists [], []. rewrite !app_nil_r. auto.
  - destruct (IH (snd (handle req db))) as (ns & na & Hs & Ha).
    rewrite Hs, Ha.
    destruct (handle_cases req db)
      as [H|[(tok & cls & created & H)|(sid & st & nm & mk & H)]].
    + rewrite H. eauto.
    + apply insert_session_ok in H as [_ ->]. simpl.
      rewrite <- !app_assoc. eauto.
    + apply insert_attendance_ok in H as [_ ->]. simpl.
      rewrite <- !app_assoc. eauto.
Qed.

(** X9: over any sequence of requests the two tables only grow at their end;
    a token that names a session keeps naming that same session, and the
    number of attendance rows of a session never goes down. *)
Theorem run_keeps_history (reqs : list Request) (db : DB) :
  (exists new_sessions new_attendance,
      sessions (run reqs db) = sessions db ++ new_sessions /\
      attendance (run reqs db) = attendance db ++ new_attendance) /\
  (forall tok session,
      select_session_by_token tok db = Some session ->
      select_session_by_token tok (run reqs db) = Some session) /\
  (forall sid,
      (attendance_count sid db <= attendance_count sid (run reqs db))%nat).
Proof.
  destruct (run_appends reqs db) as (ns & na & Hs & Ha).
  split; [eauto|]. split.
  - intros tok session H. unfold select_session_by_token in *.
    rewrite Hs. apply find_app_found. exact H.
  - intros sid. unfold attendance_count.
    rewrite Ha, filter_app, length_app. lia.
Qed.

Lemma run_keeps_history_witness :
  select_session_by_token ex_token (run [ex_mark; ex_mark_late; ex_create] ex_db1)
  = Some (Session.mk 1 ex_token (u "Algorithms 101") (isoformat ex_t0)).
Proof.
  apply (proj1 (proj2 (run_keeps_history [ex_mark; ex_mark_late; ex_create] ex_db1))).
  reflexivity.
Defined.

(** X10: in a reachable state, once a student is recorded for a stored
    session, every later request with that token and that student_id, and a
    name that is not blank and that UTF-8 can encode, is answered 409 and
    writes nothing, whatever requests were served in between. *)
Theorem marked_student_stays_rejected
        (body : option json) (now : datetime) (reqs : list Request) (db : DB)
        (tok student name : pystr) (session : Session.t) :
  reachable db ->
  In session (sessions db) -> Session.token session = tok ->
  mark_fields body = inr (tok, student, name) ->
  tok <> [] -> student <> [] -> name <> [] ->
  encodable tok = true -> encodable student = true -> encodable name = true ->
  In (Session.id session, student) (map attendance_key (attendance db)) ->
  mark_attendance body now (run reqs db)
  = (Json false "Attendance already marked for this student" 409, run reqs db).
Proof.
  intros R Hstored Htok Hf Ht Hs Hn Et Es En Hin.
  pose proof (select_stored_session db session R Hstored) as Hsel.
  rewrite Htok in Hsel.
  destruct (run_appends reqs db) as (ns & na & Hss & Haa).
  rewrite (mark_attendance_fields body now _ _ _ _ Hf Ht Hs Hn Et Es En).
  assert (select_session_by_token tok (run reqs db) = Some session) as ->.
  { unfold select_session_by_token in *. rewrite Hss.
    apply find_app_found. exact Hsel. }
  rewrite insert_attendance_taken; [reflexivity|].
  rewrite Haa, map_app, in_app_iff. left. exact Hin.
Qed.

Lemma marked_student_stays_rejected_witness :
  mark_attendance (mark_body ex_token2 (u " S1 ") (u "Someone else")) ex_t3
                  (run [ex_mark_late; ex_create; GetHome] ex_db5)
  = (Json false "Attendance already marked for this student" 409,
     run [ex_mark_late; ex_create; GetHome] ex_db5).
Proof.
  apply (marked_student_stays_rejected
           _ ex_t3 [ex_mark_late; ex_create; GetHome] ex_db5
           ex_token2 (u "S1") (u "Someone else")
           (Session.mk 2 ex_token2 (u "Physics") (isoformat ex_t3)));
    try reflexivity; try discriminate.
  - apply reachable_step, reachable_step, reachable_step, reachable_step,
      reachable_step, reachable_init.
  - right. left. reflexivity.
  - simpl. right. right. left. reflexivity.
Defined.

(** ** What the pages show after a write *)

(** X11: after a request is answered [ok: true], the page of its session
    lists the trimmed student_id and student_name with the time of the
    request, next to the rows that were listed before and nothing else. *)
Theorem session_page_shows_mark
        (body : option json) (now : datetime) (db db' : DB)
        (tok student name : pystr) :
  mark_fields body = inr (tok, student, name) ->
  mark_attendance body now db
  = (Json true "Attendance marked successfully" 200, db') ->
  exists session,
    select_session_by_token tok db = Some session /\
    forall host_url,
      session_detail host_url tok db'
      = (Render (SessionPage session
                             (select_attendance (Session.id session) db')
                             host_url tok), db') /\
      In (AttendanceRow.mk student name (isoformat now))
         (select_attendance (Session.id session) db') /\
      Permutation
        (select_attendance (Session.id session) db')
        (AttendanceRow.mk student name (isoformat now)
         :: select_attendance (Session.id session) db).
Proof.
  intros Hf H.
  destruct (mark_attendance_inv body now db)
    as [[e He]|[(msg & st & He)
               |(t & s & n & session & db1 & Hf' & _ & _ & Hsel & Hins & He)]];
    rewrite He in H; try discriminate H.
  inversion H; subst db1; clear H He.
  rewrite Hf in Hf'. inversion Hf'; subst t s n; clear Hf'.
  apply insert_attendance_ok in Hins as [_ ->].
  exists session. split; [exact Hsel|]. intros host_url.
  assert (Permutation
            (select_attendance (Session.id session)
               (mkDB (sessions db)
                     (attendance db ++
                        [Attendance.mk
                           (next_rowid (attendance_seq db)
                                       (map Attendance.id (attendance db)))
                           (Session.id session) student name (isoformat now)])
                     (sessions_seq db)
                     (next_rowid (attendance_seq db)
                                 (map Attendance.id (attendance db)))))
            (AttendanceRow.mk student name (isoformat now)
             :: select_attendance (Session.id session) db)) as HP.
  { unfold select_attendance. simpl.
    rewrite order_by_desc_perm, filter_app, map_app. simpl.
    rewrite Z.eqb_refl. simpl.
    rewrite (order_by_desc_perm _ (map attendance_row _)).
    symmetry. apply Permutation_cons_append. }
  split; [|split].
  - unfold session_detail, select_session_by_token in *. simpl.
    rewrite Hsel. reflexivity.
  - eapply Permutation_in; [symmetry; exact HP|]. left. reflexivity.
  - exact HP.
Qed.

Lemma session_page_shows_mark_witness :
  exists session,
    select_session_by_token ex_token ex_db2 = Some session /\
    forall host_url,
      session_detail host_url ex_token ex_db3
      = (Render (SessionPage session
                             (select_attendance (Session.id session) ex_db3)
                             host_url ex_token), ex_db3) /\
      In (AttendanceRow.mk (u "S2") (u "Grace") (isoformat ex_t2))
         (select_attendance (Session.id session) ex_db3) /\
      Permutation
        (select_attendance (Session.id session) ex_db3)
        (AttendanceRow.mk (u "S2") (u "Grace") (isoformat ex_t2)
         :: select_attendance (Session.id session) ex_db2).
Proof.
  apply (session_page_shows_mark
           (mark_body ex_token (u "S2") (u "Grace")) ex_t2 ex_db2 ex_db3
           ex_token (u "S2") (u "Grace")); reflexivity.
Defined.

(** X12: in a reachable state, a session that was created is the first of
    the home page, before the sessions the page listed until then, and has
    the token drawn for it, the trimmed class name and the request's time. *)
Theorem home_shows_new_session_first
        (form_class_name : option pystr) (tok : pystr) (now : datetime)
        (db db' : DB) :
  reachable db ->
  create_session form_class_name tok now db
  = (Redirect (SessionDetailEndpoint tok), db') ->
  exists rowid,
    home db'
    = (Render (HomePage
                 (Session.mk rowid tok (strip (form_get form_class_name []))
                             (isoformat now)
                  :: select_sessions db)), db').
Proof.
  intros R H.
  assert (reachable db') as R'.
  { replace db' with (snd (handle (PostCreateSession form_class_name tok now) db))
      by (simpl; rewrite H; reflexivity).
    apply reachable_step. exact R. }
  unfold create_session in H.
  destruct (negb _); [discriminate H|].
  destruct (insert_session _ _ _ _) as [e|db1] eqn:E; [discriminate H|].
  inversion H; subst db1; clear H.
  pose proof E as Hdb. apply insert_session_ok in Hdb as [_ Hdb].
  eexists. unfold home, select_sessions.
  rewrite (order_by_desc_rev Session.id (sessions db'))
    by exact (reachable_sessions_in_order db' R').
  rewrite (order_by_desc_rev Session.id (sessions db))
    by exact (reachable_sessions_in_order db R).
  rewrite Hdb at 1. simpl. rewrite rev_app_distr. reflexivity.
Qed.

Lemma home_shows_new_session_first_witness :
  exists rowid,
    home (snd (create_session (Some (u " Physics ")) (u "YmFyZm9vNDMyMQ")
                              ex_t3 ex_db3))
    = (Render (HomePage
                 (Session.mk rowid (u "YmFyZm9vNDMyMQ")
                             (strip (form_get (Some (u " Physics ")) []))
                             (isoformat ex_t3)
                  :: select_sessions ex_db3)),
       snd (create_session (Some (u " Physics ")) (u "YmFyZm9vNDMyMQ")
                           ex_t3 ex_db3)).
Proof.
  apply (home_shows_new_session_first
           (Some (u " Physics ")) (u "YmFyZm9vNDMyMQ") ex_t3 ex_db3);
    [exact ex_db3_reachable | reflexivity].
Defined.

Lemma filter_unreferenced (r : Z) (ids : list Z) (l : list Attendance.t) :
  Forall (fun a => In (Attendance.session_id a) ids) l ->
  Forall (fun i => i < r) ids ->
  filter (fun a => Attendance.session_id a =? r) l = [].
Proof.
  intros Href Habove. rewrite Forall_forall in Habove.
  induction Href as [|a l Ha _ IH]; simpl; [reflexivity|].
  destruct (Z.eqb_spec (Attendance.session_id a) r) as [Eq|_]; [|exact IH].
  specialize (Habove _ Ha). lia.
Qed.

(** X13: in a reachable state a session that was just created has no
    attendance: its page lists no row and its count is zero. *)
Theorem new_session_has_no_attendance
        (form_class_name : option pystr) (tok : pystr) (now : datetime)
        (db db' : DB) :
  reachable db ->
  create_session form_class_name tok now db
  = (Redirect (SessionDetailEndpoint tok), db') ->
  exists session,
    select_session_by_token tok db' = Some session /\
    select_attendance (Session.id session) db' = [] /\
    attendance_count (Session.id session) db' = 0%nat.
Proof.
  intros R H. unfold create_session in H.
  destruct (negb _); [discriminate H|].
  destruct (insert_session _ _ _ _) as [e|db1] eqn:E; [discriminate H|].
  inversion H; subst db1; clear H.
  pose proof E as Hdb. apply insert_session_ok in Hdb as [Hfresh Hdb].
  eexists. split.
  - rewrite Hdb. unfold select_session_by_token. simpl.
    apply find_app_last; [|simpl; apply str_eqb_refl].
    rewrite <- existsb_token in Hfresh. apply not_true_is_false. exact Hfresh.
  - simpl.
    assert (filter (fun a => Attendance.session_id a
                             =? next_rowid (sessions_seq db)
                                           (map Session.id (sessions db)))
                   (attendance db') = []) as Hnone.
    { rewrite Hdb. simpl.
      apply (filter_unreferenced _ (map Session.id (sessions db))).
      - exact (references_valid_inv db R).
      - apply next_rowid_above. }
    unfold select_attendance, attendance_count. rewrite Hnone.
    split; reflexivity.
Qed.

Lemma new_session_has_no_attendance_witness :
  exists session,
    select_session_by_token (u "YmFyZm9vNDMyMQ")
      (snd (create_session (Some (u " Physics ")) (u "YmFyZm9vNDMyMQ")
                           ex_t3 ex_db3)) = Some session /\
    select_attendance (Session.id session)
      (snd (create_session (Some (u " Physics ")) (u "YmFyZm9vNDMyMQ")
                           ex_t3 ex_db3)) = [] /\
    attendance_count (Session.id session)
      (snd (create_session (Some (u " Physics ")) (u "YmFyZm9vNDMyMQ")
                           ex_t3 ex_db3)) = 0%nat.
Proof.
  apply (new_session_has_no_attendance
           (Some (u " Physics ")) (u "YmFyZm9vNDMyMQ") ex_t3 ex_db3);
    [exact ex_db3_reachable | reflexivity].
Defined.

(** ** The scan page *)

(** X14: for a token no stored session has, the scan page and the session
    page both answer 404; in a reachable state the scan page of a stored
    session shows that session's class name under its token.  Neither page
    writes. *)
Theorem scan_page_of_token (tok : pystr) (db : DB) :
  (~ In tok (map Session.token (sessions db)) ->
   scan_page tok db = (Text "Session not found" 404, db) /\
   forall host_url,
     session_detail host_url tok db = (Text "Session not found" 404, db)) /\
  (reachable db ->
   forall session,
     In session (sessions db) -> Session.token session = tok ->
     scan_page tok db
     = (Render (ScanPage tok (Session.class_name session)), db)).
Proof.
  split.
  - intros Hnot.
    assert (select_session_by_token tok db = None) as Hsel.
    { unfold select_session_by_token.
      destruct (find _ (sessions db)) as [s|] eqn:E; [|reflexivity].
      apply find_some in E as [Hin Heq]. apply str_eqb_eq in Heq.
      exfalso. apply Hnot. rewrite <- Heq. apply in_map. exact Hin. }
    unfold scan_page, session_detail. rewrite Hsel. split; reflexivity.
  - intros R session Hin <-.
    unfold scan_page, select_session_by_token.
    rewrite (find_unique_token _ _ (tokens_unique_inv db R) Hin).
    reflexivity.
Qed.

Lemma scan_page_of_token_witness :
  scan_page (u "nope") ex_db3 = (Text "Session not found" 404, ex_db3) /\
  scan_page ex_token ex_db3
  = (Render (ScanPage ex_token (u "Algorithms 101")), ex_db3).
Proof.
  split.
  - apply (proj1 (scan_page_of_token (u "nope") ex_db3)).
    simpl. intros [H|[]]. discriminate H.
  - apply (proj2 (scan_page_of_token ex_token ex_db3) ex_db3_reachable
                 (Session.mk 1 ex_token (u "Algorithms 101") (isoformat ex_t0))).
    + left. reflexivity.
    + reflexivity.
Defined.

(** ** The connection of a request *)

Lemma get_db_times_open (n : nat) (c : Ctx) (conn : Conn) :
  g_db c = Some conn -> get_db_times n c = (repeat conn n, c).
Proof.
  intros H. induction n as [|n IH]; simpl; [reflexivity|].
  unfold get_db at 1. rewrite H, IH. reflexivity.
Qed.

(** X15: in a request that starts without a connection, however often the
    handler calls [get_db], one connection is opened, by the first call, and
    every call returns it, with the row factory set; [close_db] at the end of
    the request closes it, so that the connections open in the process are
    those that were open before, and leaves the context without one; a
    second [close_db], or a [close_db] after no [get_db], does nothing. *)
Theorem request_connection_scope (n : nat) (c : Ctx) :
  g_db c = None ->
  Forall (fun i => (i < connects c)%nat) (open_conns c) ->
  Forall (fun conn => conn = mkConn (connects c) true) (fst (get_db_times n c)) /\
  List.length (fst (get_db_times n c)) = n /\
  connects (snd (get_db_times n c)) = (connects c + Nat.min n 1)%nat /\
  open_conns (close_db (snd (get_db_times n c))) = open_conns c /\
  g_db (close_db (snd (get_db_times n c))) = None /\
  close_db (close_db (snd (get_db_times n c))) = close_db (snd (get_db_times n c)).
Proof.
  intros Hg Hopen. destruct n as [|n].
  - simpl. unfold close_db. rewrite Hg. simpl.
    repeat split; try constructor; try rewrite Hg; try reflexivity; lia.
  - assert (get_db_times (S n) c
            = (repeat (mkConn (connects c) true) (S n),
               mkCtx (Some (mkConn (connects c) true))
                     (connects c :: open_conns c) (S (connects c)))) as E.
    { simpl. unfold get_db at 1. rewrite Hg.
      rewrite (get_db_times_open n _ (mkConn (connects c) true)) by reflexivity.
      reflexivity. }
    rewrite E. cbn [fst snd]. rewrite repeat_length.
    unfold close_db. cbn [g_db open_conns connects conn_id remove].
    destruct (Nat.eq_dec (connects c) (connects c)) as [_|Hne];
      [|contradiction].
    rewrite notin_remove.
    + repeat split; try reflexivity; try lia.
      apply Forall_forall. intros x Hx. apply repeat_spec in Hx. exact Hx.
    + intros Hin. rewrite Forall_forall in Hopen.
      specialize (Hopen _ Hin). lia.
Qed.

Lemma request_connection_scope_witness :
  open_conns (close_db (snd (get_db_times 3 (mkCtx None [4; 1]%nat 7%nat))))
  = [4; 1]%nat /\
  fst (get_db_times 3 (mkCtx None [4; 1]%nat 7%nat))
  = [mkConn 7 true; mkConn 7 true; mkConn 7 true].
Proof.
  destruct (request_connection_scope 3 (mkCtx None [4; 1]%nat 7%nat))
    as (_ & _ & _ & H & _).
  - reflexivity.
  - simpl. repeat constructor.
  - split; [exact H | reflexivity].
Defined.

(** ** Timestamps *)

Lemma str_eqb_same_prefix (c : string) (x y : pystr) :
  str_eqb (u c ++ x) (u c ++ y) = str_eqb x y.
Proof.
  rewrite str_eqb_app by reflexivity. rewrite str_eqb_refl. reflexivity.
Qed.

Lemma isoformat_eqb (a b : datetime) :
  datetime_in_range a -> datetime_in_range b ->
  str_eqb (isoformat a) (isoformat b)
  = ((year a =? year b) && ((month a =? month b) && ((day a =? day b) &&
     ((hour a =? hour b) && ((minute a =? minute b)
                             && (second a =? second b))))))%N.
Proof.
  unfold datetime_in_range, isoformat. intros Ha Hb.
  rewrite str_eqb_app, str_eqb_same_prefix by reflexivity.
  rewrite str_eqb_app, str_eqb_same_prefix by reflexivity.
  rewrite str_eqb_app, str_eqb_same_prefix by reflexivity.
  rewrite str_eqb_app, str_eqb_same_prefix by reflexivity.
  rewrite str_eqb_app, str_eqb_same_prefix by reflexivity.
  rewrite digits4_eqb by lia. rewrite !digits2_eqb by lia. reflexivity.
Qed.

(** X16: the timestamp written for a time is a text of 19 characters; two
    times get the same text exactly when they agree down to the second, the
    microseconds being dropped, and the texts are ordered as the times. *)
Theorem isoformat_keeps_seconds (a b : datetime) :
  datetime_in_range a -> datetime_in_range b ->
  List.length (isoformat a) = 19%nat /\
  (isoformat a = isoformat b <->
   year a = year b /\ month a = month b /\ day a = day b /\
   hour a = hour b /\ minute a = minute b /\ second a = second b) /\
  (str_leb (isoformat a) (isoformat b) = true <-> datetime_leb a b = true).
Proof.
  intros Ha Hb. split; [reflexivity|]. split.
  - rewrite <- str_eqb_eq, (isoformat_eqb a b Ha Hb).
    rewrite !andb_true_iff, !N.eqb_eq. tauto.
  - rewrite (isoformat_order a b Ha Hb). tauto.
Qed.

Lemma isoformat_keeps_seconds_witness :
  isoformat ex_t1 = isoformat (mk_datetime 2024 1 1 10 5 0 999) /\
  str_leb (isoformat ex_t1) (isoformat ex_t2) = true.
Proof.
  assert (datetime_in_range ex_t1) as R1
    by (unfold datetime_in_range, ex_t1; simpl; lia).
  assert (datetime_in_range ex_t2) as R2
    by (unfold datetime_in_range, ex_t2; simpl; lia).
  assert (datetime_in_range (mk_datetime 2024 1 1 10 5 0 999)) as R3
    by (unfold datetime_in_range; simpl; lia).
  split.
  - apply (proj1 (proj2 (isoformat_keeps_seconds _ _ R1 R3))).
    repeat split.
  - apply (proj2 (proj2 (isoformat_keeps_seconds _ _ R1 R2))).
    reflexivity.
Defined.

(** ** A token drawn twice *)

(** X17: a token that is stored stays taken.  Whatever requests are served
    in between, a creation with a non-blank class name for which the
    generator draws that token again is stopped by the UNIQUE constraint:
    the exception is not caught, the answer is 500 and nothing is written. *)
Theorem taken_token_stays_rejected
        (form_class_name : option pystr) (tok : pystr) (now : datetime)
        (reqs : list Request) (db : DB) :
  strip (form_get form_class_name []) <> [] ->
  In tok (map Session.token (sessions db)) ->
  create_session form_class_name tok now (run reqs db)
  = (ServerError IntegrityError, run reqs db).
Proof.
  intros Hname Hin. unfold create_session.
  destruct (strip (form_get form_class_name [])) as [|c cls]; [congruence|].
  simpl. rewrite insert_session_taken; [reflexivity|].
  destruct (run_appends reqs db) as (ns & na & Hs & _).
  rewrite Hs, map_app, in_app_iff. left. exact Hin.
Qed.

Lemma taken_token_stays_rejected_witness :
  create_session (Some (u "Physics")) ex_token ex_t3
                 (run [ex_mark; GetScanPage ex_token] ex_db1)
  = (ServerError IntegrityError, run [ex_mark; GetScanPage ex_token] ex_db1).
Proof.
  apply (taken_token_stays_rejected
           (Some (u "Physics")) ex_token ex_t3
           [ex_mark; GetScanPage ex_token] ex_db1).
  - discriminate.
  - left. reflexivity.
Defined.
